(** * The API service of ai-pdf-assistant (backend/data_handler.py)

    A shallow embedding of the request handlers of [data_handler.py] and of
    [database.get_connection], followed by the properties the specification
    states about them.

    Python values are modelled as follows.
    - [str] is [string]; one [ascii] stands for one character, so [len] is
      [String.length] and [s.encode("utf-8")[:72].decode("utf-8")] keeps the
      first 72 characters.
    - [bytes] is [list byte]; [len(contents)] is read in [Z].
    - the two tables are lists of rows in the order the rows were inserted;
      [cursor.fetchone()] yields the first row of the result set.
    - a handler is a function on the handler's local variables ([frame]) and
      on everything that outlives the request ([world]): the committed
      database, the scratch directory and the trace of calls made to the
      external collaborators.
    - exceptions are values of [exn]; [try]/[except]/[finally] are the
      combinators [try_except] and [try_finally]. *)

From Stdlib Require Import ZArith List String Ascii Strings.Byte Lia Bool.
From stdpp Require Import base gmap strings list pretty.
Import ListNotations.
Open Scope string_scope.

(** ** Request bodies and table rows *)

Definition bytes : Type := list byte.

(** [fastapi.UploadFile]: the three attributes the handlers read. *)
Record UploadFile : Type := mkUploadFile {
  filename : string;
  content_type : string;
  body : bytes
}.

(** [class UserRegistration(BaseModel)] *)
Record UserRegistration : Type := mkUserRegistration {
  user_name : string;
  email : string;
  password : string
}.

(** [class LoginInput(BaseModel)]; its password field is [login_password]. *)
Record LoginInput : Type := mkLoginInput {
  identifier : string;
  login_password : string
}.

(** [class DeleteAccountInput(BaseModel)] *)
Record DeleteAccountInput : Type := mkDeleteAccountInput {
  delete_password : string
}.

(** A row of table [users]. *)
Record users_row : Type := mkUser {
  u_user_id : string;
  u_user_name : string;
  u_email : string;
  u_password : string;
  u_registration_date : string
}.

(** A row of table [pdfs]; [pdf_text] is nullable. *)
Record pdfs_row : Type := mkPdf {
  p_user_id : string;
  p_file_name : string;
  p_upload_date : string;
  p_pdf_text : option string;
  p_last_updated : string
}.

Record database : Type := mkDatabase {
  users : list users_row;
  pdfs : list pdfs_row
}.

(** ** Exceptions and results *)

Inductive exn : Type :=
| HTTPException (status_code : nat) (detail : string)
| RuntimeError (msg : string)
| OSError (msg : string)
| UnboundLocalError (name : string)
| AttributeError (msg : string).

Inductive outcome (A : Type) : Type :=
| Return (a : A)
| Raise (e : exn).
Arguments Return {A} a.
Arguments Raise {A} e.

(** The JSON object a handler returns: keys and values in the order written. *)
Definition response : Type := list (string * string).

(** [str(e)]. For [HTTPException] this is Starlette's
    ["{status_code}: {detail}"]; the other exceptions print their message. *)
Definition str_exn (e : exn) : string :=
  match e with
  | HTTPException status_code detail => pretty status_code +:+ ": " +:+ detail
  | RuntimeError msg => msg
  | OSError msg => msg
  | UnboundLocalError name =>
      "cannot access local variable '" +:+ name
        +:+ "' where it is not associated with a value"
  | AttributeError msg => msg
  end.

(** Modelled from the spec: the HTTP framework is not part of the sources.
    "Any failed lookup raises a user-facing error carrying an HTTP-style
    status and message; uncaught internal failures surface as a generic
    server error": an [HTTPException] answers with its own status, any other
    exception with 500, a returned value with the route's success status. *)
Definition http_status {A : Type} (success : nat) (o : outcome A) : nat :=
  match o with
  | Return _ => success
  | Raise (HTTPException status_code _) => status_code
  | Raise _ => 500
  end.

(** ** The world outside a request *)

Inductive event : Type :=
| FileWritten (path : string)
| TextExtracted (path : string)
| FileRemoved (path : string)
| LLMCalled (context query : string).

Record world : Type := mkWorld {
  db : database;
  fs : gmap string bytes;
  trace : list event
}.

(** The local variables of a handler that its [finally] block reads.
    [conn] carries the rows as the open transaction sees them; [None] is
    Python's [None] for [conn] and "not bound yet" for [file_path]. *)
Record frame : Type := mkFrame {
  conn : option database;
  cursor : bool;
  file_path : option string
}.

(** [conn = None; cursor = None] and no binding for [file_path]. *)
Definition fresh_frame : frame :=
  {| conn := None; cursor := false; file_path := None |}.

(** ** The handler monad: state and exceptions *)

Definition handler (A : Type) : Type := frame -> world -> outcome A * frame * world.

Definition ret {A : Type} (a : A) : handler A :=
  fun f w => (Return a, f, w).

Definition bind {A B : Type} (m : handler A) (k : A -> handler B) : handler B :=
  fun f w =>
    match m f w with
    | (Return a, f', w') => k a f' w'
    | (Raise e, f', w') => (Raise e, f', w')
    end.

Definition raise {A : Type} (e : exn) : handler A :=
  fun f w => (Raise e, f, w).

(** [try: m  except Exception as e: h e] *)
Definition try_except {A : Type} (m : handler A) (h : exn -> handler A) : handler A :=
  fun f w =>
    match m f w with
    | (Return a, f', w') => (Return a, f', w')
    | (Raise e, f', w') => h e f' w'
    end.

(** [try: m  finally: fin]: [fin] always runs; an exception raised by [fin]
    replaces the result of [m]. *)
Definition try_finally {A : Type} (m : handler A) (fin : handler unit) : handler A :=
  fun f w =>
    match m f w with
    | (o, f', w') =>
        match fin f' w' with
        | (Return _, f'', w'') => (o, f'', w'')
        | (Raise e, f'', w'') => (Raise e, f'', w'')
        end
    end.

Declare Scope handler_scope.
Delimit Scope handler_scope with handler.
Notation "x <- m ;; k" := (bind m (fun x => k))
  (at level 100, m at next level, right associativity) : handler_scope.
Notation "m ;; k" := (bind m (fun _ => k))
  (at level 100, right associativity) : handler_scope.
Open Scope handler_scope.

(** A request: the handler runs on fresh locals, which die with it. *)
Definition call {A : Type} (m : handler A) (w : world) : outcome A * world :=
  match m fresh_frame w with
  | (o, _, w') => (o, w')
  end.

(** ** The scratch directory *)

Definition UPLOAD_DIR : string := "/temp/cag_uploads".

Definition starts_with_slash (s : string) : bool :=
  match s with
  | String c _ => Ascii.eqb c "/"%char
  | EmptyString => false
  end.

(** [os.path.join(a, b)] for a directory [a] that does not end in a slash. *)
Definition os_path_join (a b : string) : string :=
  if starts_with_slash b then b else a +:+ "/" +:+ b.

(** [os.path.join(UPLOAD_DIR, f"{user_id}_{file_name}")], the temporary file
    of [upload_pdf]. *)
Definition upload_path (user_id file_name : string) : string :=
  os_path_join UPLOAD_DIR (user_id +:+ "_" +:+ file_name).

(** [os.path.join(UPLOAD_DIR, f"{user_id}_update_{file.filename}")], the
    temporary file of [update_pdf_data]. *)
Definition update_path (user_id file_name : string) : string :=
  os_path_join UPLOAD_DIR (user_id +:+ "_update_" +:+ file_name).

Definition fs_write (path : string) (data : bytes) (files : gmap string bytes)
  : gmap string bytes := <[path := data]> files.

Definition fs_remove (path : string) (files : gmap string bytes)
  : gmap string bytes := delete path files.

Definition fs_exists (path : string) (files : gmap string bytes) : bool :=
  match files !! path with
  | Some _ => true
  | None => false
  end.

Arguments fs_write : simpl never.
Arguments fs_remove : simpl never.
Arguments fs_exists : simpl never.
Arguments upload_path : simpl never.
Arguments update_path : simpl never.

(** ** SQL statements on the two tables *)

Definition fetchone {A : Type} (rows : list A) : option A := head rows.

(** [COALESCE(pdf_text, '')] *)
Definition COALESCE (t : option string) : string :=
  match t with
  | Some s => s
  | None => ""
  end.

(** [UPDATE pdfs SET pdf_text = COALESCE(pdf_text, '') || %s, last_updated = %s
     WHERE user_id = %s AND file_name = %s], on one row. *)
Definition UPDATE_pdfs_row (suffix last_updated user_id file_name : string)
    (r : pdfs_row) : pdfs_row :=
  if (p_user_id r =? user_id) && (p_file_name r =? file_name)
  then {| p_user_id := p_user_id r;
          p_file_name := p_file_name r;
          p_upload_date := p_upload_date r;
          p_pdf_text := Some (COALESCE (p_pdf_text r) +:+ suffix);
          p_last_updated := last_updated |}
  else r.

(** The Python literal ["\n\n"]. *)
Definition blank_line : string := String "010" (String "010" EmptyString).

(** [max_size = 20 * 1024 * 1024] *)
Definition max_size : Z := 20 * 1024 * 1024.

Definition file_size (file : UploadFile) : Z := Z.of_nat (length (body file)).

(** ** The collaborators outside the sources

    [auth.py], [pdf_processor.py] and [llm_client.py], the [passlib] and
    [psycopg2] libraries, the clock and the operating system are parameters
    of every handler. *)
Record collaborators : Type := mkCollaborators {
  (** [bcrypt.hash(secret)], with the salt drawn for this request *)
  bcrypt_hash : string -> string;
  (** [bcrypt.verify(secret, hash)] *)
  bcrypt_verify : string -> string -> bool;
  (** [auth.sign_jwt(user_id)] *)
  sign_jwt : string -> string;
  (** [pdf_processor.extract_text_from_pdf], on the bytes of the file at the
      path it is given; [None] is the [None] the handlers test for *)
  extract_text_from_pdf : bytes -> option string;
  (** [llm_client.get_llm_response(context, query)] *)
  get_llm_response : string -> string -> string;
  (** whether the [i]-th [psycopg2.connect] of a request succeeds *)
  psycopg2_connect : nat -> bool;
  (** the message of the [OSError] that [open(path, "wb")] raises, if any *)
  open_error : string -> option string;
  (** [datetime.utcnow().strftime("%d-%m-%y")] *)
  utcnow_strftime : string;
  (** [str(datetime.utcnow().date())] *)
  utcnow_date : string
}.

Section Handlers.

Variable E : collaborators.

(** *** database.py *)

(** The [for i in range(retries)] loop of [get_connection], from attempt [i]
    with [retries] attempts left. *)
Fixpoint connect_attempts (i retries : nat) : bool :=
  match retries with
  | O => false
  | S r => if psycopg2_connect E i then true else connect_attempts (S i) r
  end.

Definition get_connection : handler database :=
  fun f w =>
    if connect_attempts 0 10
    then (Return (db w), f, w)
    else (Raise (RuntimeError
            "Could not connect to the database after several attempts."), f, w).

(** *** Statements of the handlers *)

(** [conn = get_connection()] *)
Definition assign_conn : handler unit :=
  c <- get_connection ;;
  fun f w => (Return tt, {| conn := Some c; cursor := cursor f; file_path := file_path f |}, w).

(** [cursor = conn.cursor()] *)
Definition assign_cursor : handler unit :=
  fun f w =>
    match conn f with
    | Some c => (Return tt, {| conn := Some c; cursor := true; file_path := file_path f |}, w)
    | None => (Raise (AttributeError "'NoneType' object has no attribute 'cursor'"), f, w)
    end.

(** [cursor.execute("SELECT ...")]: the result set, read from the rows the
    transaction sees. *)
Definition SELECT {A : Type} (q : database -> list A) : handler (list A) :=
  fun f w =>
    match cursor f, conn f with
    | true, Some c => (Return (q c), f, w)
    | _, _ => (Raise (AttributeError "'NoneType' object has no attribute 'execute'"), f, w)
    end.

(** [cursor.execute] of an [INSERT], [UPDATE] or [DELETE]. *)
Definition execute (stmt : database -> database) : handler unit :=
  fun f w =>
    match cursor f, conn f with
    | true, Some c =>
        (Return tt, {| conn := Some (stmt c); cursor := true; file_path := file_path f |}, w)
    | _, _ => (Raise (AttributeError "'NoneType' object has no attribute 'execute'"), f, w)
    end.

(** [conn.commit()] *)
Definition commit : handler unit :=
  fun f w =>
    match conn f with
    | Some c => (Return tt, f, {| db := c; fs := fs w; trace := trace w |})
    | None => (Raise (AttributeError "'NoneType' object has no attribute 'commit'"), f, w)
    end.

(** [if cursor: cursor.close()] and [if conn: conn.close()]: what was not
    committed is dropped with the connection. *)
Definition close_cursor_and_conn : handler unit :=
  fun f w => (Return tt, {| conn := None; cursor := false; file_path := file_path f |}, w).

(** [file_path = ...] *)
Definition assign_file_path (p : string) : handler unit :=
  fun f w => (Return tt, {| conn := conn f; cursor := cursor f; file_path := Some p |}, w).

(** A read of the local variable [file_path]. *)
Definition read_file_path : handler string :=
  fun f w =>
    match file_path f with
    | Some p => (Return p, f, w)
    | None => (Raise (UnboundLocalError "file_path"), f, w)
    end.

(** [with open(path, "wb") as buffer: buffer.write(data)] *)
Definition open_write (path : string) (data : bytes) : handler unit :=
  fun f w =>
    match open_error E path with
    | Some msg => (Raise (OSError msg), f, w)
    | None =>
        (Return tt, f,
         {| db := db w; fs := fs_write path data (fs w);
            trace := trace w ++ [FileWritten path] |})
    end.

(** [extract_text_from_pdf(path)] *)
Definition extract_text (path : string) : handler (option string) :=
  fun f w =>
    (Return match fs w !! path with
            | Some data => extract_text_from_pdf E data
            | None => None
            end, f,
     {| db := db w; fs := fs w; trace := trace w ++ [TextExtracted path] |}).

(** [os.path.exists(path)] *)
Definition os_path_exists (path : string) : handler bool :=
  fun f w => (Return (fs_exists path (fs w)), f, w).

(** [os.remove(path)] *)
Definition os_remove (path : string) : handler unit :=
  fun f w =>
    (Return tt, f,
     {| db := db w; fs := fs_remove path (fs w);
        trace := trace w ++ [FileRemoved path] |}).

(** [if os.path.exists(file_path): os.remove(file_path)] *)
Definition remove_temporary_file : handler unit :=
  p <- read_file_path ;;
  present <- os_path_exists p ;;
  if present : bool then os_remove p else ret tt.

(** [get_llm_response(context=..., query=...)] *)
Definition llm (context query : string) : handler string :=
  fun f w =>
    (Return (get_llm_response E context query), f,
     {| db := db w; fs := fs w; trace := trace w ++ [LLMCalled context query] |}).

(** [SELECT ... FROM users WHERE user_id = %s] *)
Definition users_by_id (user_id : string) (d : database) : list users_row :=
  List.filter (fun r => u_user_id r =? user_id) (users d).

(** [SELECT user_id, email FROM users WHERE user_id = %s OR email = %s] *)
Definition users_by_id_or_email (user_id email : string) (d : database) : list users_row :=
  List.filter (fun r => (u_user_id r =? user_id) || (u_email r =? email)) (users d).

(** [SELECT ... FROM users WHERE user_name = %s OR email = %s] *)
Definition users_by_name_or_email (identifier : string) (d : database) : list users_row :=
  List.filter (fun r => (u_user_name r =? identifier) || (u_email r =? identifier)) (users d).

(** *** register_user *)

Definition register_user (uuid : string) (user : UserRegistration) : handler response :=
  let registration_date := utcnow_strftime E in
  let uuid_str := uuid in
  if user_name user =? "" then
    raise (HTTPException 400 "User name cannot be empty!")
  else
  let max_user_length := 15 in
  if (max_user_length <? String.length (user_name user))%nat then
    raise (HTTPException 400 "User name is too long!")
  else
  try_finally
    (assign_conn ;;
     assign_cursor ;;
     rows <- SELECT (users_by_id_or_email uuid_str (email user)) ;;
     match fetchone rows with
     | Some row =>
         if u_user_id row =? uuid_str then
           raise (HTTPException 400 ("UUID '" +:+ uuid_str +:+ "' is already registered!"))
         else if u_email row =? email user then
           raise (HTTPException 400 ("Email '" +:+ email user +:+ "' is already exist!"))
         else ret tt
     | None => ret tt
     end ;;
     let password_bytes := substring 0 72 (password user) in
     let hashed_password := bcrypt_hash E password_bytes in
     execute (fun d =>
       {| users := users d ++
            [ {| u_user_id := uuid_str; u_user_name := user_name user;
                 u_email := email user; u_password := hashed_password;
                 u_registration_date := registration_date |} ];
          pdfs := pdfs d |}) ;;
     commit ;;
     ret [ ("message", "User registered successfully!");
           ("uuid", uuid_str);
           ("user_name", user_name user);
           ("email", email user);
           ("Registration_date", registration_date) ])
    close_cursor_and_conn.

(** *** user_login *)

Definition user_login (login_data : LoginInput) : handler response :=
  try_finally
    (assign_conn ;;
     assign_cursor ;;
     rows <- SELECT (users_by_name_or_email (identifier login_data)) ;;
     match fetchone rows with
     | None => raise (HTTPException 401 "Invalid credentials.")
     | Some row =>
         let db_user_id := u_user_id row in
         let db_password := u_password row in
         if negb (bcrypt_verify E (login_password login_data) db_password) then
           raise (HTTPException 401 "Invalid credentials.")
         else
           let token := sign_jwt E db_user_id in
           ret [ ("message", "Login successful");
                 ("access_token", token);
                 ("token_type", "bearer") ]
     end)
    close_cursor_and_conn.

(** *** upload_pdf *)

(** The [except Exception as e] clause of [upload_pdf] and [update_pdf_data].
    [HTTPException] is an [Exception]: the clause also catches the errors
    the [try] block raises itself. *)
Definition processing_error (e : exn) : handler response :=
  raise (HTTPException 500
           ("An error accurred during file processing: " +:+ str_exn e)).

(** The [finally] clause of [upload_pdf] and [update_pdf_data]. *)
Definition cleanup : handler unit :=
  close_cursor_and_conn ;;
  remove_temporary_file.

(** The [try] block of [upload_pdf]. *)
Definition upload_pdf_try (file : UploadFile) (user_id upload_date : string)
  : handler response :=
  let file_name := filename file in
  p <- read_file_path ;;
  open_write p (body file) ;;
  extracted_text <- extract_text p ;;
  match extracted_text with
  | None => raise (HTTPException 500 "Failed to extract text from PDF")
  | Some text =>
      assign_conn ;;
      assign_cursor ;;
      rows <- SELECT (users_by_id user_id) ;;
      match fetchone rows with
      | None => raise (HTTPException 404 "User ID not found")
      | Some _ =>
          execute (fun d =>
            {| users := users d;
               pdfs := pdfs d ++
                 [ {| p_user_id := user_id; p_file_name := file_name;
                      p_upload_date := upload_date; p_pdf_text := Some text;
                      p_last_updated := upload_date |} ] |}) ;;
          commit ;;
          ret [ ("message", "File uploaded and text extracted successfully");
                ("uuid", user_id);
                ("file_name", file_name);
                ("upload_date", upload_date);
                ("last_updated", upload_date) ]
      end
  end.

Definition upload_pdf (file : UploadFile) (current_user : string) : handler response :=
  let upload_date := utcnow_strftime E in
  let file_name := filename file in
  let user_id := current_user in
  if negb (content_type file =? "application/pdf") then
    raise (HTTPException 400 "Invalid file type. Only PDF files are accepted")
  else
  if (max_size <? file_size file)%Z then
    raise (HTTPException 400 "The file is too large. Max size allowed is 20 MB")
  else
  assign_file_path (upload_path user_id file_name) ;;
  try_finally
    (try_except (upload_pdf_try file user_id upload_date) processing_error)
    cleanup.

(** *** update_pdf_data *)

(** The [try] block of [update_pdf_data]. *)
Definition update_pdf_data_try (file : UploadFile) (user_id : string)
  : handler response :=
  assign_conn ;;
  assign_cursor ;;
  rows <- SELECT (users_by_id user_id) ;;
  match fetchone rows with
  | None => raise (HTTPException 404 "User not found.")
  | Some row =>
      let db_user_name := u_user_name row in
      if negb (content_type file =? "application/pdf") then
        raise (HTTPException 400 "Invalid file type. Only PDF files are accepted!")
      else
      if (max_size <? file_size file)%Z then
        raise (HTTPException 400 "The file is too large. Max size allowed is 20 MB")
      else
      assign_file_path (update_path user_id (filename file)) ;;
      p <- read_file_path ;;
      open_write p (body file) ;;
      new_text <- extract_text p ;;
      match new_text with
      | None => raise (HTTPException 500 "Failed to extract text from PDF!")
      | Some text =>
          let last_updated := utcnow_date E in
          execute (fun d =>
            {| users := users d;
               pdfs := map (UPDATE_pdfs_row (blank_line +:+ text)
                              last_updated user_id (filename file))
                           (pdfs d) |}) ;;
          commit ;;
          ret [ ("message", "Data appended successfully by " +:+ db_user_name);
                ("uuid", user_id);
                ("last_updated", last_updated) ]
      end
  end.

Definition update_pdf_data (file : UploadFile) (current_user : string) : handler response :=
  let user_id := current_user in
  try_finally
    (try_except (update_pdf_data_try file user_id) processing_error)
    cleanup.

(** *** query_data

    [if not row or not row["pdf_text"]] is the three 404 branches below: no
    row, a [NULL] text, an empty text. *)

(** [SELECT pdf_text FROM pdfs WHERE user_id = %s] *)
Definition pdfs_by_user (user_id : string) (d : database) : list pdfs_row :=
  List.filter (fun r => p_user_id r =? user_id) (pdfs d).

Definition query_data (query : string) (current_user : string) : handler response :=
  let user_id := current_user in
  try_finally
    (assign_conn ;;
     assign_cursor ;;
     rows <- SELECT (users_by_id user_id) ;;
     match fetchone rows with
     | None => raise (HTTPException 404 "User not found!")
     | Some row =>
         let db_user_name := u_user_name row in
         rows <- SELECT (pdfs_by_user user_id) ;;
         match fetchone rows with
         | None => raise (HTTPException 404 "No PDF data found for this user")
         | Some row =>
             match p_pdf_text row with
             | None => raise (HTTPException 404 "No PDF data found for this user")
             | Some stored_text =>
                 if stored_text =? "" then
                   raise (HTTPException 404 "No PDF data found for this user")
                 else
                   llm_response <- llm stored_text query ;;
                   ret [ ("uuid", user_id);
                         ("user", db_user_name);
                         ("query", query);
                         ("LLM_response", llm_response) ]
             end
         end
     end)
    close_cursor_and_conn.

(** *** delete_account *)

Definition delete_account (password : DeleteAccountInput) (current_user : string)
  : handler response :=
  let user_id := current_user in
  try_finally
    (assign_conn ;;
     assign_cursor ;;
     rows <- SELECT (users_by_id user_id) ;;
     match fetchone rows with
     | None => raise (HTTPException 404 "User not found")
     | Some row =>
         let db_password := u_password row in
         if negb (bcrypt_verify E (delete_password password) db_password) then
           raise (HTTPException 401 "Wrong password.")
         else
           execute (fun d =>
             {| users := List.filter (fun r => negb (u_user_id r =? user_id)) (users d);
                pdfs := pdfs d |}) ;;
           commit ;;
           ret [ ("message", "Your account has been deleted!");
                 ("uuid", user_id) ]
     end)
    close_cursor_and_conn.

(** *** get_uploads_history *)

Definition get_uploads_history (current_user : string) : handler response :=
  let user_id := current_user in
  try_finally
    (assign_conn ;;
     assign_cursor ;;
     rows <- SELECT (users_by_id user_id) ;;
     match fetchone rows with
     | None => raise (HTTPException 404 "UUID not found")
     | Some _ =>
         rows <- SELECT (fun d => pdfs d) ;;
         match fetchone rows with
         | None => raise (HTTPException 404 "History not found")
         | Some row =>
             ret [ ("file_name", p_file_name row);
                   ("upload_date", p_upload_date row);
                   ("last_updated", p_last_updated row) ]
         end
     end)
    close_cursor_and_conn.

End Handlers.

Arguments connect_attempts : simpl never.

(** ** The two remaining handlers of data_handler.py *)

(** The JSON object [get_all_users] returns. *)
Record users_listing : Type := mkUsersListing {
  uuids : list string;
  total_users : nat
}.

(** The identifier [get_all_users] compares the caller with. *)
Definition ADMIN_UUID : string := "92994189-e6ae-43f8-8df9-00247522e3c6".

(** [DELETE FROM pdfs WHERE user_id = %s] *)
Definition DELETE_pdfs_by_user (user_id : string) (d : database) : database :=
  {| users := users d;
     pdfs := List.filter (fun r => negb (p_user_id r =? user_id)) (pdfs d) |}.

Section MoreHandlers.

Variable E : collaborators.

(** [cursor.execute] of a [DELETE] followed by a read of [cursor.rowcount]:
    the number of rows the statement removed. *)
Definition execute_rowcount (stmt : database -> database)
    (count : database -> nat) : handler nat :=
  fun f w =>
    match cursor f, conn f with
    | true, Some c =>
        (Return (count c),
         {| conn := Some (stmt c); cursor := true; file_path := file_path f |}, w)
    | _, _ => (Raise (AttributeError "'NoneType' object has no attribute 'execute'"), f, w)
    end.

(** *** delete_pdf_data *)

Definition delete_pdf_data (current_user : string) : handler response :=
  let user_id := current_user in
  try_finally
    (assign_conn E ;;
     assign_cursor ;;
     rows <- SELECT (users_by_id user_id) ;;
     match fetchone rows with
     | None => raise (HTTPException 404 "User not found")
     | Some _ =>
         deleted_rows <- execute_rowcount (DELETE_pdfs_by_user user_id)
                           (fun d => length (pdfs_by_user user_id d)) ;;
         if (deleted_rows =? 0)%nat then
           ret [ ("message", "No PDF data found for UUID '" +:+ user_id +:+ "'") ]
         else
           commit ;;
           ret [ ("message", "Data for UUID '" +:+ user_id +:+ "' has been deleted!") ]
     end)
    close_cursor_and_conn.

(** *** get_all_users *)

Definition get_all_users (current_user : string) : handler users_listing :=
  let user_id := current_user in
  try_finally
    (assign_conn E ;;
     assign_cursor ;;
     rows <- SELECT (users_by_id user_id) ;;
     match fetchone rows with
     | None => raise (HTTPException 404 "User not found")
     | Some _ =>
         if negb (user_id =? ADMIN_UUID) then
           raise (HTTPException 403 "Admins only")
         else
           rows <- SELECT (fun d => users d) ;;
           match rows with
           | [] => ret {| uuids := []; total_users := 0 |}
           | _ =>
               let uuids := map u_user_id rows in
               let total_users := length uuids in
               ret {| uuids := uuids; total_users := total_users |}
           end
     end)
    close_cursor_and_conn.

End MoreHandlers.

(** ** Vocabulary of the properties

    Names for the conditions and for the sequences of requests that the
    properties below speak about. *)


(** The two duplicate errors of [register_user]. *)
Definition uuid_conflict (uuid : string) : exn :=
  HTTPException 400 ("UUID '" +:+ uuid +:+ "' is already registered!").

Definition email_conflict (user : UserRegistration) : exn :=
  HTTPException 400 ("Email '" +:+ email user +:+ "' is already exist!").

(** The name checks that [register_user] makes before it opens a connection. *)
Definition valid_user_name (user : UserRegistration) : Prop :=
  user_name user <> "" /\ String.length (user_name user) <= 15.

(** The query as the specification words it: "at most one document row
    system-wide per call without filtering by the authenticated user". It is
    [query_data] with [SELECT pdf_text FROM pdfs] in place of the statement
    of the source, and serves only to compare the two. *)
Definition query_data_unfiltered (E : collaborators) (query : string)
    (current_user : string) : handler response :=
  let user_id := current_user in
  try_finally
    (assign_conn E ;;
     assign_cursor ;;
     rows <- SELECT (users_by_id user_id) ;;
     match fetchone rows with
     | None => raise (HTTPException 404 "User not found!")
     | Some row =>
         let db_user_name := u_user_name row in
         rows <- SELECT (fun d => pdfs d) ;;
         match fetchone rows with
         | None => raise (HTTPException 404 "No PDF data found for this user")
         | Some row =>
             match p_pdf_text row with
             | None => raise (HTTPException 404 "No PDF data found for this user")
             | Some stored_text =>
                 if stored_text =? "" then
                   raise (HTTPException 404 "No PDF data found for this user")
                 else
                   llm_response <- llm E stored_text query ;;
                   ret [ ("uuid", user_id);
                         ("user", db_user_name);
                         ("query", query);
                         ("LLM_response", llm_response) ]
             end
         end
     end)
    close_cursor_and_conn.

(** What [upload_pdf] asks of a file before it reaches the database. *)
Definition accepted_by_upload (E : collaborators) (uid : string)
    (file : UploadFile) (text : string) : Prop :=
  content_type file = "application/pdf" /\
  (file_size file <= max_size)%Z /\
  open_error E (upload_path uid (filename file)) = None /\
  extract_text_from_pdf E (body file) = Some text.

(** What [update_pdf_data] asks of a file before it runs its [UPDATE]. *)
Definition accepted_by_update (E : collaborators) (uid : string)
    (file : UploadFile) (text : string) : Prop :=
  content_type file = "application/pdf" /\
  (file_size file <= max_size)%Z /\
  open_error E (update_path uid (filename file)) = None /\
  extract_text_from_pdf E (body file) = Some text.

(** The requests [update_pdf_data file uid], one after the other. *)
Fixpoint run_updates (E : collaborators) (uid : string) (files : list UploadFile)
    (w : world) : world :=
  match files with
  | [] => w
  | file :: rest => run_updates E uid rest (snd (call (update_pdf_data E file uid) w))
  end.

(** What a sequence of updates appends to a row: each text behind a blank
    line, in arrival order. *)
Fixpoint appended (texts : list string) : string :=
  match texts with
  | [] => ""
  | text :: rest => blank_line +:+ text +:+ appended rest
  end.

(** The handler answered with a result or with an [HTTPException] of its
    own, not with an exception that escaped it. *)
Definition answered {A : Type} (o : outcome A) : Prop :=
  match o with
  | Return _ => True
  | Raise (HTTPException _ _) => True
  | Raise _ => False
  end.

(** ** Sample collaborators, files and databases

    Concrete stand-ins on which the handlers evaluate: extraction reads the
    bytes of the file as its text (an empty file has none), and a password
    hash is the password behind a prefix. *)
Module Sample.

Definition collab : collaborators :=
  {| bcrypt_hash := fun secret => "$2b$" +:+ secret;
     bcrypt_verify := fun secret hash => hash =? "$2b$" +:+ secret;
     sign_jwt := fun user_id => "jwt." +:+ user_id;
     extract_text_from_pdf := fun data =>
       match data with
       | [] => None
       | _ => Some (string_of_list_byte data)
       end;
     get_llm_response := fun context query => "Re: " +:+ query +:+ " | " +:+ context;
     psycopg2_connect := fun _ => true;
     open_error := fun _ => None;
     utcnow_strftime := "03-11-26";
     utcnow_date := "2026-11-03" |}.

(** The same collaborators with a database that refuses the connections
    before attempt [n]. *)
Definition collab_answering_from (n : nat) : collaborators :=
  {| bcrypt_hash := bcrypt_hash collab;
     bcrypt_verify := bcrypt_verify collab;
     sign_jwt := sign_jwt collab;
     extract_text_from_pdf := extract_text_from_pdf collab;
     get_llm_response := get_llm_response collab;
     psycopg2_connect := fun i => (n <=? i)%nat;
     open_error := open_error collab;
     utcnow_strftime := utcnow_strftime collab;
     utcnow_date := utcnow_date collab |}.

Definition alice : users_row :=
  {| u_user_id := "a1"; u_user_name := "alice"; u_email := "alice@x.com";
     u_password := "$2b$wonderland"; u_registration_date := "01-11-26" |}.

Definition bob : users_row :=
  {| u_user_id := "b2"; u_user_name := "bob"; u_email := "bob@x.com";
     u_password := "$2b$builder"; u_registration_date := "02-11-26" |}.

Definition bob_doc : pdfs_row :=
  {| p_user_id := "b2"; p_file_name := "notes.pdf"; p_upload_date := "02-11-26";
     p_pdf_text := Some "B"; p_last_updated := "02-11-26" |}.

Definition alice_doc : pdfs_row :=
  {| p_user_id := "a1"; p_file_name := "doc.pdf"; p_upload_date := "02-11-26";
     p_pdf_text := Some "A"; p_last_updated := "02-11-26" |}.

(** Two users, no document. *)
Definition w_users : world :=
  {| db := {| users := [alice; bob]; pdfs := [] |}; fs := ∅; trace := [] |}.

(** Two users; the first document of the table is bob's. *)
Definition w_docs : world :=
  {| db := {| users := [alice; bob]; pdfs := [bob_doc; alice_doc] |};
     fs := ∅; trace := [] |}.

Definition pdf (name : string) (data : bytes) : UploadFile :=
  {| filename := name; content_type := "application/pdf"; body := data |}.

Definition text_file : UploadFile :=
  {| filename := "doc.txt"; content_type := "text/plain"; body := ["h"; "i"]%byte |}.

(** A PDF of one byte more than [max_size]. *)
Definition huge_pdf : UploadFile :=
  pdf "huge.pdf" (repeat "000"%byte (Z.to_nat (max_size + 1))).

End Sample.

(** Collaborators whose extractor returns the text it finds even when there
    is none: a file without bytes yields the empty string, not [None]. *)
Module Scanned.

Definition collab : collaborators :=
  {| bcrypt_hash := bcrypt_hash Sample.collab;
     bcrypt_verify := bcrypt_verify Sample.collab;
     sign_jwt := sign_jwt Sample.collab;
     extract_text_from_pdf := fun data => Some (string_of_list_byte data);
     get_llm_response := get_llm_response Sample.collab;
     psycopg2_connect := psycopg2_connect Sample.collab;
     open_error := open_error Sample.collab;
     utcnow_strftime := utcnow_strftime Sample.collab;
     utcnow_date := utcnow_date Sample.collab |}.

End Scanned.

(** ** Reasoning about handlers *)

(** Unfolds the statements of a handler down to functions on the frame and
    the world. *)
Ltac run_handler :=
  unfold call, cleanup, processing_error, try_finally, try_except, bind, ret,
    raise, assign_conn, get_connection, assign_cursor, SELECT, execute,
    commit, close_cursor_and_conn, assign_file_path, read_file_path,
    open_write, extract_text, os_path_exists, os_remove,
    remove_temporary_file, llm, fresh_frame;
  cbn.

Lemma fs_lookup_write (path : string) (data : bytes) (files : gmap string bytes) :
  fs_write path data files !! path = Some data.
Proof. unfold fs_write. apply lookup_insert_eq. Qed.

Lemma fs_exists_write (path : string) (data : bytes) (files : gmap string bytes) :
  fs_exists path (fs_write path data files) = true.
Proof. unfold fs_exists. now rewrite fs_lookup_write. Qed.

Lemma fs_lookup_remove (path : string) (files : gmap string bytes) :
  fs_remove path files !! path = None.
Proof. unfold fs_remove. apply lookup_delete_eq. Qed.

Lemma fs_exists_false (path : string) (files : gmap string bytes) :
  fs_exists path files = false -> files !! path = None.
Proof. unfold fs_exists. destruct (files !! path); [discriminate | reflexivity]. Qed.

Lemma fetchone_filter_Some {A : Type} (P : A -> bool) (l : list A) (x : A) :
  fetchone (List.filter P l) = Some x -> In x l /\ P x = true.
Proof.
  unfold fetchone. intros H.
  assert (Hin : In x (List.filter P l)).
  { destruct (List.filter P l) as [|y ys]; [discriminate |].
    injection H as ->. now left. }
  now apply filter_In in Hin.
Qed.

Lemma fetchone_filter_None {A : Type} (P : A -> bool) (l : list A) :
  fetchone (List.filter P l) = None -> forall x, In x l -> P x = false.
Proof.
  unfold fetchone. intros H x Hx.
  destruct (P x) eqn:HP; [| reflexivity].
  assert (Hin : In x (List.filter P l)) by (apply filter_In; auto).
  destruct (List.filter P l); [contradiction | discriminate].
Qed.

Lemma fetchone_filter_exists {A : Type} (P : A -> bool) (l : list A) (x : A) :
  In x l -> P x = true -> exists y, fetchone (List.filter P l) = Some y.
Proof.
  intros Hx HP.
  destruct (fetchone (List.filter P l)) as [y|] eqn:Hf; [eauto |].
  rewrite (fetchone_filter_None P l Hf x Hx) in HP. discriminate.
Qed.

(** The sample PDF of [max_size + 1] bytes, measured without building it. *)
Lemma huge_pdf_size : file_size Sample.huge_pdf = (max_size + 1)%Z.
Proof.
  unfold file_size, Sample.huge_pdf, Sample.pdf, body.
  rewrite repeat_length. apply Z2Nat.id. unfold max_size. lia.
Qed.

(** [get_connection] makes ten attempts, numbered from 0: a database that
    answers at the tenth is reached, one that would answer at the eleventh
    is given up with a [RuntimeError]. *)
Example get_connection_tenth_attempt :
  get_connection (Sample.collab_answering_from 9) fresh_frame Sample.w_users
  = (Return (db Sample.w_users), fresh_frame, Sample.w_users).
Proof. reflexivity. Qed.

Example get_connection_gives_up :
  get_connection (Sample.collab_answering_from 10) fresh_frame Sample.w_users
  = (Raise (RuntimeError "Could not connect to the database after several attempts."),
     fresh_frame, Sample.w_users).
Proof. reflexivity. Qed.

(** ** Login *)

(** C4. A login whose identifier selects a row but whose password does not
    verify against it, and a login whose identifier selects no row, receive
    the same outcome: [HTTPException 401 "Invalid credentials."], hence the
    same status and the same message; neither changes the world. The two
    attempts may be made at different times ([w1], [w2]). *)
Theorem user_login_failures_are_identical
    (E : collaborators) (w1 w2 : world) (known unknown : LoginInput) (row : users_row) :
  connect_attempts E 0 10 = true ->
  fetchone (users_by_name_or_email (identifier known) (db w1)) = Some row ->
  bcrypt_verify E (login_password known) (u_password row) = false ->
  fetchone (users_by_name_or_email (identifier unknown) (db w2)) = None ->
  call (user_login E known) w1 = (Raise (HTTPException 401 "Invalid credentials."), w1) /\
  call (user_login E unknown) w2 = (Raise (HTTPException 401 "Invalid credentials."), w2) /\
  fst (call (user_login E known) w1) = fst (call (user_login E unknown) w2) /\
  http_status 200 (fst (call (user_login E known) w1)) = 401.
Proof.
  intros Hconn Hrow Hverify Hnone.
  assert (H1 : call (user_login E known) w1
               = (Raise (HTTPException 401 "Invalid credentials."), w1)).
  { unfold user_login. run_handler. rewrite Hconn. cbn.
    rewrite Hrow. cbn. rewrite Hverify. reflexivity. }
  assert (H2 : call (user_login E unknown) w2
               = (Raise (HTTPException 401 "Invalid credentials."), w2)).
  { unfold user_login. run_handler. rewrite Hconn. cbn.
    rewrite Hnone. reflexivity. }
  rewrite H1, H2. repeat split.
Qed.

(** Alice's email with a wrong password against an identifier nobody has. *)
Lemma user_login_failures_are_identical_witness :
  call (user_login Sample.collab (mkLoginInput "alice@x.com" "guess")) Sample.w_users
    = (Raise (HTTPException 401 "Invalid credentials."), Sample.w_users) /\
  call (user_login Sample.collab (mkLoginInput "mallory" "guess")) Sample.w_users
    = (Raise (HTTPException 401 "Invalid credentials."), Sample.w_users).
Proof.
  destruct (user_login_failures_are_identical Sample.collab Sample.w_users
              Sample.w_users (mkLoginInput "alice@x.com" "guess")
              (mkLoginInput "mallory" "guess") Sample.alice)
    as (H1 & H2 & _); [reflexivity | reflexivity | reflexivity | reflexivity |].
  split; [exact H1 | exact H2].
Defined.

(** ** Registration *)

(** C5. A registration whose identifier is already in table [users], or whose
    email is already there under another identifier, fails with status 400
    and leaves the world, hence table [users], as it was: no row is
    inserted. For a request that meets the name precondition of the
    operation the error is one of the two duplicate errors; the handler
    rejects an empty or too long name before it looks at the table. *)
Theorem register_user_duplicate_is_rejected
    (E : collaborators) (w : world) (uuid : string) (user : UserRegistration) :
  connect_attempts E 0 10 = true ->
  (exists r, In r (users (db w)) /\ u_user_id r = uuid) \/
  (exists r, In r (users (db w)) /\ u_email r = email user /\ u_user_id r <> uuid) ->
  exists e,
    call (register_user E uuid user) w = (Raise e, w) /\
    http_status 200 (Raise (A := response) e) = 400 /\
    (valid_user_name user -> e = uuid_conflict uuid \/ e = email_conflict user).
Proof.
  intros Hconn Hdup.
  unfold register_user.
  destruct (String.eqb_spec (user_name user) "") as [Hempty | Hnonempty].
  { eexists. split; [reflexivity |]. split; [reflexivity |].
    intros [Hne _]. contradiction. }
  destruct (Nat.ltb_spec 15 (String.length (user_name user))) as [Hlong | Hshort].
  { eexists. split; [reflexivity |]. split; [reflexivity |].
    intros [_ Hle]. lia. }
  assert (Hfound : exists row,
            fetchone (users_by_id_or_email uuid (email user) (db w)) = Some row).
  { unfold users_by_id_or_email.
    destruct Hdup as [(r & Hin & Hid) | (r & Hin & Hmail & _)];
      apply (fetchone_filter_exists _ _ r Hin); cbn.
    - apply orb_true_iff. left. now apply String.eqb_eq.
    - apply orb_true_iff. right. now apply String.eqb_eq. }
  destruct Hfound as [row Hrow].
  pose proof (fetchone_filter_Some _ _ _ Hrow) as [_ Hmatch]. cbn in Hmatch.
  run_handler. rewrite Hconn. cbn. rewrite Hrow. cbn.
  destruct (String.eqb_spec (u_user_id row) uuid) as [Hid | Hid]; cbn.
  - eexists. split; [reflexivity |]. split; [reflexivity |]. intros _. now left.
  - cbn in Hmatch. rewrite Hmatch. cbn.
    eexists. split; [reflexivity |]. split; [reflexivity |]. intros _. now right.
Qed.

(** Alice's identifier again, under a new name and email. *)
Lemma register_user_duplicate_is_rejected_witness :
  exists e,
    call (register_user Sample.collab "a1" (mkUserRegistration "alicia" "al@x.com" "pw"))
         Sample.w_users = (Raise e, Sample.w_users) /\
    e = uuid_conflict "a1".
Proof.
  destruct (register_user_duplicate_is_rejected Sample.collab Sample.w_users "a1"
              (mkUserRegistration "alicia" "al@x.com" "pw"))
    as (e & Hcall & _ & Hkind).
  - reflexivity.
  - left. exists Sample.alice. split; [now left | reflexivity].
  - exists e. split; [exact Hcall |].
    destruct Hkind as [He | He].
    + split; [discriminate | cbn; lia].
    + exact He.
    + exfalso. rewrite He in Hcall. vm_compute in Hcall. discriminate.
Defined.


(** Registration keeps the identifiers of [users] pairwise distinct. *)
Lemma register_user_keeps_identifiers_unique
    (E : collaborators) (w w' : world) (uuid : string) (user : UserRegistration)
    (resp : response) :
  call (register_user E uuid user) w = (Return resp, w') ->
  List.NoDup (map u_user_id (users (db w))) ->
  List.NoDup (map u_user_id (users (db w'))).
Proof.
  unfold register_user.
  destruct (user_name user =? ""); [discriminate |].
  destruct (15 <? String.length (user_name user))%nat; [discriminate |].
  run_handler.
  destruct (connect_attempts E 0 10); cbn; [| discriminate].
  destruct (fetchone (users_by_id_or_email uuid (email user) (db w))) as [row |] eqn:Hrow;
    cbn.
  { apply fetchone_filter_Some in Hrow as [_ Hmatch]. cbn in Hmatch.
    destruct (u_user_id row =? uuid); cbn; [discriminate |].
    destruct (u_email row =? email user); cbn; [discriminate |].
    discriminate Hmatch. }
  intros H. injection H as _ <-. cbn. intros Hnd.
  rewrite map_app. apply List.NoDup_app; [exact Hnd | repeat constructor; intros [] |].
  intros id Hid [<- | []].
  apply in_map_iff in Hid as (r & Hrid & Hr).
  pose proof (fetchone_filter_None _ _ Hrow r Hr) as Hno. cbn in Hno.
  apply orb_false_iff in Hno as [Hno _].
  apply String.eqb_neq in Hno. contradiction.
Qed.

(** Carol registers; her identifier, and then her email under another
    identifier, are refused afterwards. *)
Example register_user_twice :
  let carol := mkUserRegistration "carol" "carol@x.com" "pw" in
  let w1 := snd (call (register_user Sample.collab "c3" carol) Sample.w_users) in
  map u_user_id (users (db w1)) = ["a1"; "b2"; "c3"] /\
  call (register_user Sample.collab "c3" carol) w1 = (Raise (uuid_conflict "c3"), w1) /\
  call (register_user Sample.collab "d4" carol) w1 = (Raise (email_conflict carol), w1).
Proof. vm_compute. repeat split. Qed.

(** ** Account deletion *)

Lemma filter_out_unique_key (l : list users_row) (uid : string) :
  List.NoDup (map u_user_id l) ->
  (exists r, In r l /\ u_user_id r = uid) ->
  length l = S (length (List.filter (fun r => negb (u_user_id r =? uid)) l)).
Proof.
  induction l as [| x xs IH]; intros Hnd (r & Hin & Hid).
  - destruct Hin.
  - cbn in Hnd. apply List.NoDup_cons_iff in Hnd as [Hx Hnd]. cbn.
    destruct (String.eqb_spec (u_user_id x) uid) as [Hxid | Hxid]; cbn.
    + f_equal. clear IH.
      assert (Hall : forall y, In y xs -> negb (u_user_id y =? uid) = true).
      { intros y Hy. apply negb_true_iff, String.eqb_neq. intros Hyid.
        apply Hx. rewrite Hxid, <- Hyid. now apply in_map. }
      clear - Hall. induction xs as [| y ys IHys]; [reflexivity |].
      cbn. rewrite (Hall y) by now left. cbn. f_equal.
      apply IHys. intros z Hz. apply Hall. now right.
    + f_equal. apply IH; [exact Hnd |].
      destruct Hin as [-> | Hin]; [contradiction | eauto].
Qed.

(** C9. A [delete_account] that returns has removed from table [users] the
    rows whose identifier is the caller's, and nothing else: the other rows
    stay, in their order; the caller did have a row, and where identifiers
    are unique exactly one row is gone. Table [pdfs] is the same list of
    rows as before, the caller's documents included. *)
Theorem delete_account_leaves_documents
    (E : collaborators) (w w' : world) (password : DeleteAccountInput)
    (uid : string) (resp : response) :
  call (delete_account E password uid) w = (Return resp, w') ->
  users (db w') = List.filter (fun r => negb (u_user_id r =? uid)) (users (db w)) /\
  (forall r, In r (users (db w')) <-> In r (users (db w)) /\ u_user_id r <> uid) /\
  (exists r, In r (users (db w)) /\ u_user_id r = uid) /\
  (List.NoDup (map u_user_id (users (db w))) ->
     length (users (db w)) = S (length (users (db w')))) /\
  pdfs (db w') = pdfs (db w).
Proof.
  unfold delete_account. run_handler.
  destruct (connect_attempts E 0 10); cbn; [| discriminate].
  destruct (fetchone (users_by_id uid (db w))) as [row |] eqn:Hrow; cbn;
    [| discriminate].
  destruct (bcrypt_verify E (delete_password password) (u_password row)); cbn;
    [| discriminate].
  intros H. injection H as _ <-. cbn.
  apply fetchone_filter_Some in Hrow as [Hin Hid]. apply String.eqb_eq in Hid.
  assert (Hex : exists r, In r (users (db w)) /\ u_user_id r = uid) by eauto.
  split; [reflexivity |]. split; [| split; [exact Hex | split; [| reflexivity]]].
  - intros r. rewrite filter_In, negb_true_iff, String.eqb_neq. reflexivity.
  - intros Hnd. now apply filter_out_unique_key.
Qed.

(** Alice deletes her account while a document of hers is stored. *)
Lemma delete_account_leaves_documents_witness :
  users (db (snd (call (delete_account Sample.collab (mkDeleteAccountInput "wonderland") "a1")
                       Sample.w_docs))) = [Sample.bob] /\
  pdfs (db (snd (call (delete_account Sample.collab (mkDeleteAccountInput "wonderland") "a1")
                      Sample.w_docs))) = [Sample.bob_doc; Sample.alice_doc].
Proof.
  destruct (delete_account_leaves_documents Sample.collab Sample.w_docs
              (snd (call (delete_account Sample.collab
                            (mkDeleteAccountInput "wonderland") "a1") Sample.w_docs))
              (mkDeleteAccountInput "wonderland") "a1"
              [("message", "Your account has been deleted!"); ("uuid", "a1")])
    as (Husers & _ & _ & _ & Hpdfs).
  - vm_compute. reflexivity.
  - split; [rewrite Husers | rewrite Hpdfs]; reflexivity.
Defined.

(** ** Query and upload history *)



(** C2, as stated, fails for the query: with bob's document first in the
    table, alice's query reads her own document ("A"), where a lookup without
    a filter on the user would have read bob's ("B"). *)
Lemma query_data_is_not_unfiltered :
  call (query_data Sample.collab "q" "a1") Sample.w_docs
  = (Return [ ("uuid", "a1"); ("user", "alice"); ("query", "q");
              ("LLM_response", "Re: q | A") ],
     {| db := db Sample.w_docs; fs := ∅; trace := [LLMCalled "A" "q"] |}) /\
  call (query_data_unfiltered Sample.collab "q" "a1") Sample.w_docs
  = (Return [ ("uuid", "a1"); ("user", "alice"); ("query", "q");
              ("LLM_response", "Re: q | B") ],
     {| db := db Sample.w_docs; fs := ∅; trace := [LLMCalled "B" "q"] |}) /\
  call (query_data Sample.collab "q" "a1") Sample.w_docs
  <> call (query_data_unfiltered Sample.collab "q" "a1") Sample.w_docs.
Proof.
  split; [vm_compute; reflexivity |].
  split; [vm_compute; reflexivity |].
  vm_compute. discriminate.
Qed.

(** C2, amended. For a caller whose user row exists, with the database
    reachable: [get_uploads_history] reads one row, the first row of table
    [pdfs], without any filter on the user, and returns its metadata
    whoever owns it; [query_data] reads one row too, but among the rows
    whose [user_id] is the caller's, so the text it hands to the LLM client
    always belongs to the caller. *)
Theorem history_is_unfiltered_query_is_filtered
    (E : collaborators) (w : world) (uid : string) (urow : users_row) :
  connect_attempts E 0 10 = true ->
  fetchone (users_by_id uid (db w)) = Some urow ->
  call (get_uploads_history E uid) w
  = match fetchone (pdfs (db w)) with
    | Some row =>
        (Return [ ("file_name", p_file_name row);
                  ("upload_date", p_upload_date row);
                  ("last_updated", p_last_updated row) ], w)
    | None => (Raise (HTTPException 404 "History not found"), w)
    end /\
  (forall query resp w',
     call (query_data E query uid) w = (Return resp, w') ->
     exists row text,
       fetchone (pdfs_by_user uid (db w)) = Some row /\
       In row (pdfs (db w)) /\
       p_user_id row = uid /\
       p_pdf_text row = Some text /\
       trace w' = (trace w ++ [LLMCalled text query])%list /\
       resp = [ ("uuid", uid); ("user", u_user_name urow); ("query", query);
                ("LLM_response", get_llm_response E text query) ]).
Proof.
  intros Hconn Hurow. split.
  - unfold get_uploads_history. run_handler. rewrite Hconn. cbn.
    rewrite Hurow. cbn.
    destruct (fetchone (pdfs (db w))); reflexivity.
  - intros query resp w'. unfold query_data. run_handler. rewrite Hconn. cbn.
    rewrite Hurow. cbn.
    destruct (fetchone (pdfs_by_user uid (db w))) as [row |] eqn:Hrow; cbn;
      [| discriminate].
    destruct (p_pdf_text row) as [text |] eqn:Hcol; cbn; [| discriminate].
    destruct (text =? "") eqn:Hempty; cbn; [discriminate |].
    intros H. injection H as <- <-. cbn.
    apply fetchone_filter_Some in Hrow as [Hin Hid]. apply String.eqb_eq in Hid.
    exists row, text. repeat split; assumption.
Qed.

(** Alice, with bob's document first in the table: her upload history shows
    bob's file, her query is answered from her own text. *)
Lemma history_is_unfiltered_query_is_filtered_witness :
  call (get_uploads_history Sample.collab "a1") Sample.w_docs
  = (Return [ ("file_name", "notes.pdf"); ("upload_date", "02-11-26");
              ("last_updated", "02-11-26") ], Sample.w_docs) /\
  p_user_id Sample.bob_doc <> "a1".
Proof.
  destruct (history_is_unfiltered_query_is_filtered Sample.collab Sample.w_docs
              "a1" Sample.alice eq_refl eq_refl) as [Hhistory _].
  split; [exact Hhistory | discriminate].
Defined.

(** ** Upload and update *)

Lemma append_cons (a : ascii) (s t : string) : String a s +:+ t = String a (s +:+ t).
Proof. reflexivity. Qed.

Lemma append_assoc (s t u : string) : (s +:+ t) +:+ u = s +:+ t +:+ u.
Proof.
  induction s as [| a s IH]; [reflexivity |].
  rewrite !append_cons. now rewrite IH.
Qed.

Lemma append_nil_r (s : string) : s +:+ "" = s.
Proof.
  induction s as [| a s IH]; [reflexivity |].
  rewrite append_cons. now rewrite IH.
Qed.

Lemma upload_pdf_success
    (E : collaborators) (w : world) (file : UploadFile) (uid text : string)
    (urow : users_row) :
  connect_attempts E 0 10 = true ->
  fetchone (users_by_id uid (db w)) = Some urow ->
  accepted_by_upload E uid file text ->
  call (upload_pdf E file uid) w
  = (Return [ ("message", "File uploaded and text extracted successfully");
              ("uuid", uid);
              ("file_name", filename file);
              ("upload_date", utcnow_strftime E);
              ("last_updated", utcnow_strftime E) ],
     {| db := {| users := users (db w);
                 pdfs := pdfs (db w) ++
                   [ {| p_user_id := uid; p_file_name := filename file;
                        p_upload_date := utcnow_strftime E;
                        p_pdf_text := Some text;
                        p_last_updated := utcnow_strftime E |} ] |};
        fs := fs_remove (upload_path uid (filename file))
                (fs_write (upload_path uid (filename file)) (body file) (fs w));
        trace := trace w ++ [ FileWritten (upload_path uid (filename file));
                              TextExtracted (upload_path uid (filename file));
                              FileRemoved (upload_path uid (filename file)) ] |}).
Proof.
  intros Hconn Hurow (Hct & Hsize & Hopen & Htext).
  unfold upload_pdf, upload_pdf_try. rewrite Hct. cbn.
  destruct (Z.ltb_spec max_size (file_size file)) as [Hbig | _]; [lia |].
  run_handler. rewrite Hopen. cbn. rewrite fs_lookup_write, Htext. cbn.
  rewrite Hconn. cbn. rewrite Hurow. cbn. rewrite fs_exists_write. cbn.
  rewrite <- !app_assoc. reflexivity.
Qed.

Lemma update_pdf_data_success
    (E : collaborators) (w : world) (file : UploadFile) (uid text : string)
    (urow : users_row) :
  connect_attempts E 0 10 = true ->
  fetchone (users_by_id uid (db w)) = Some urow ->
  accepted_by_update E uid file text ->
  call (update_pdf_data E file uid) w
  = (Return [ ("message", "Data appended successfully by " +:+ u_user_name urow);
              ("uuid", uid);
              ("last_updated", utcnow_date E) ],
     {| db := {| users := users (db w);
                 pdfs := map (UPDATE_pdfs_row (blank_line +:+ text) (utcnow_date E)
                                uid (filename file))
                             (pdfs (db w)) |};
        fs := fs_remove (update_path uid (filename file))
                (fs_write (update_path uid (filename file)) (body file) (fs w));
        trace := trace w ++ [ FileWritten (update_path uid (filename file));
                              TextExtracted (update_path uid (filename file));
                              FileRemoved (update_path uid (filename file)) ] |}).
Proof.
  intros Hconn Hurow (Hct & Hsize & Hopen & Htext).
  unfold update_pdf_data, update_pdf_data_try. run_handler.
  rewrite Hconn. cbn. rewrite Hurow. cbn. rewrite Hct. cbn.
  destruct (Z.ltb_spec max_size (file_size file)) as [Hbig | _]; [lia |]. cbn.
  rewrite Hopen. cbn. rewrite fs_lookup_write, Htext. cbn.
  rewrite fs_exists_write. cbn.
  rewrite <- !app_assoc. reflexivity.
Qed.

(** C6. An upload whose content type is not PDF raises its 400 error with
    the world untouched: nothing was written to the scratch directory, the
    extractor was not called (the trace of calls is the same) and the
    database is the same. An upload larger than [max_size] is rejected with
    status 400 as well, by one of the two checks, again with the world
    untouched: no row was written to [pdfs]. Both checks come before the
    handler connects to the database. *)
Theorem upload_pdf_rejects_before_any_effect
    (E : collaborators) (w : world) (file : UploadFile) (uid : string) :
  (content_type file <> "application/pdf" ->
   call (upload_pdf E file uid) w
   = (Raise (HTTPException 400 "Invalid file type. Only PDF files are accepted"), w)) /\
  ((max_size < file_size file)%Z ->
   exists detail,
     call (upload_pdf E file uid) w = (Raise (HTTPException 400 detail), w) /\
     (content_type file = "application/pdf" ->
      detail = "The file is too large. Max size allowed is 20 MB")).
Proof.
  split.
  - intros Hct. apply String.eqb_neq in Hct.
    unfold upload_pdf. rewrite Hct. reflexivity.
  - intros Hbig. apply Z.ltb_lt in Hbig.
    unfold upload_pdf.
    destruct (String.eqb_spec (content_type file) "application/pdf") as [Hct | Hct]; cbn.
    + rewrite Hbig. eexists. split; reflexivity.
    + eexists. split; [reflexivity | intros; contradiction].
Qed.

(** A text file, and a PDF of [max_size + 1] bytes, uploaded by alice. *)
Lemma upload_pdf_rejects_before_any_effect_witness :
  call (upload_pdf Sample.collab Sample.text_file "a1") Sample.w_users
  = (Raise (HTTPException 400 "Invalid file type. Only PDF files are accepted"),
     Sample.w_users) /\
  call (upload_pdf Sample.collab Sample.huge_pdf "a1") Sample.w_users
  = (Raise (HTTPException 400 "The file is too large. Max size allowed is 20 MB"),
     Sample.w_users).
Proof.
  split.
  - apply (upload_pdf_rejects_before_any_effect Sample.collab Sample.w_users
             Sample.text_file "a1").
    discriminate.
  - destruct (upload_pdf_rejects_before_any_effect Sample.collab Sample.w_users
                Sample.huge_pdf "a1") as [_ Hbig].
    destruct Hbig as (detail & Hcall & Hdetail).
    + rewrite huge_pdf_size. lia.
    + rewrite Hcall, (Hdetail eq_refl). reflexivity.
Defined.

Lemma UPDATE_pdfs_row_no_match (suffix date uid name : string) (l : list pdfs_row) :
  (forall r, In r l -> ~ (p_user_id r = uid /\ p_file_name r = name)) ->
  map (UPDATE_pdfs_row suffix date uid name) l = l.
Proof.
  intros Hnone. rewrite <- (map_id l) at 2. apply map_ext_in.
  intros r Hr. unfold UPDATE_pdfs_row.
  destruct (String.eqb_spec (p_user_id r) uid) as [Hid | Hid]; [| reflexivity].
  destruct (String.eqb_spec (p_file_name r) name) as [Hname | Hname]; [| reflexivity].
  exfalso. now apply (Hnone r Hr).
Qed.

(** C10. An update by an existing user, with a file that passes the checks
    of the handler and from which text is extracted, when no row of [pdfs]
    has both the user's identifier and the file's name: the handler returns
    its success response (status 200, "Data appended successfully by ...")
    and the database is the one it started from; no row is created and the
    extracted text is stored nowhere. *)
Theorem update_pdf_data_without_matching_row_succeeds
    (E : collaborators) (w : world) (file : UploadFile) (uid text : string)
    (urow : users_row) :
  connect_attempts E 0 10 = true ->
  fetchone (users_by_id uid (db w)) = Some urow ->
  accepted_by_update E uid file text ->
  (forall r, In r (pdfs (db w)) ->
             ~ (p_user_id r = uid /\ p_file_name r = filename file)) ->
  fst (call (update_pdf_data E file uid) w)
  = Return [ ("message", "Data appended successfully by " +:+ u_user_name urow);
             ("uuid", uid);
             ("last_updated", utcnow_date E) ] /\
  http_status 200 (fst (call (update_pdf_data E file uid) w)) = 200 /\
  db (snd (call (update_pdf_data E file uid) w)) = db w.
Proof.
  intros Hconn Hurow Hok Hnone.
  rewrite (update_pdf_data_success E w file uid text urow Hconn Hurow Hok). cbn.
  rewrite (UPDATE_pdfs_row_no_match _ _ _ _ _ Hnone).
  destruct (db w); repeat split.
Qed.

(** Alice appends [other.pdf]; her only document is [doc.pdf]. *)
Lemma update_pdf_data_without_matching_row_succeeds_witness :
  fst (call (update_pdf_data Sample.collab (Sample.pdf "other.pdf" ["x"]%byte) "a1")
            Sample.w_docs)
  = Return [ ("message", "Data appended successfully by alice");
             ("uuid", "a1");
             ("last_updated", "2026-11-03") ] /\
  db (snd (call (update_pdf_data Sample.collab (Sample.pdf "other.pdf" ["x"]%byte) "a1")
                Sample.w_docs))
  = db Sample.w_docs.
Proof.
  destruct (update_pdf_data_without_matching_row_succeeds Sample.collab Sample.w_docs
              (Sample.pdf "other.pdf" ["x"]%byte) "a1" "x" Sample.alice)
    as (Hresp & _ & Hdb).
  - reflexivity.
  - reflexivity.
  - repeat split. vm_compute. discriminate.
  - intros r [<- | [<- | []]] [Hid Hname]; discriminate.
  - split; [exact Hresp | exact Hdb].
Defined.

(** *** Sequences of updates *)

Lemma UPDATE_pdfs_row_twice (s1 s2 date uid name : string) (r : pdfs_row) :
  UPDATE_pdfs_row s2 date uid name (UPDATE_pdfs_row s1 date uid name r)
  = UPDATE_pdfs_row (s1 +:+ s2) date uid name r.
Proof.
  unfold UPDATE_pdfs_row.
  destruct ((p_user_id r =? uid) && (p_file_name r =? name)) eqn:Hmatch; cbn.
  - rewrite Hmatch. cbn. now rewrite append_assoc.
  - now rewrite Hmatch.
Qed.

Lemma run_updates_pdfs
    (E : collaborators) (uid name : string) (urow : users_row)
    (files : list UploadFile) :
  connect_attempts E 0 10 = true ->
  forall (texts : list string) (file : UploadFile) (text : string) (w : world),
    fetchone (users_by_id uid (db w)) = Some urow ->
    Forall2 (fun f t => filename f = name /\ accepted_by_update E uid f t)
            (file :: files) (text :: texts) ->
    users (db (run_updates E uid (file :: files) w)) = users (db w) /\
    pdfs (db (run_updates E uid (file :: files) w))
    = map (UPDATE_pdfs_row (appended (text :: texts)) (utcnow_date E) uid name)
          (pdfs (db w)).
Proof.
  intros Hconn.
  induction files as [| file' files IH]; intros texts file text w Hurow Hall;
    inversion Hall as [| ? ? ? ? [Hname Hok] Hrest]; subst.
  - inversion Hrest; subst. cbn [run_updates].
    rewrite (update_pdf_data_success E w file uid text urow Hconn Hurow Hok). cbn.
    split; [reflexivity |]. now rewrite append_nil_r.
  - destruct texts as [| text' texts]; [inversion Hrest |].
    change (run_updates E uid (file :: file' :: files) w)
      with (run_updates E uid (file' :: files)
              (snd (call (update_pdf_data E file uid) w))).
    rewrite (update_pdf_data_success E w file uid text urow Hconn Hurow Hok).
    cbn [snd].
    match goal with
    | |- context [run_updates E uid (file' :: files) ?w1] =>
        destruct (IH texts file' text' w1) as [Husers Hpdfs];
          [exact Hurow | exact Hrest |]
    end.
    rewrite Husers, Hpdfs. cbn [db users pdfs].
    split; [reflexivity |].
    rewrite map_map. apply map_ext. intros r.
    rewrite UPDATE_pdfs_row_twice. now rewrite append_assoc.
Qed.

(** C1, as stated, fails. Alice's document [doc.pdf] holds "A"; after two
    updates with files of that name whose texts are "x" and "y" it holds "A",
    a blank line, "x", a blank line, "y", and not "x", a blank line, "y".
    Had she no document, the same two updates would succeed and store
    nothing. *)
Lemma two_updates_keep_what_was_stored :
  extract_text_from_pdf Sample.collab ["x"]%byte = Some "x" /\
  extract_text_from_pdf Sample.collab ["y"]%byte = Some "y" /\
  map p_pdf_text
      (pdfs_by_user "a1"
         (db (run_updates Sample.collab "a1"
                [Sample.pdf "doc.pdf" ["x"]%byte; Sample.pdf "doc.pdf" ["y"]%byte]
                Sample.w_docs)))
  = [Some ("A" +:+ blank_line +:+ "x" +:+ blank_line +:+ "y")] /\
  map p_pdf_text
      (pdfs_by_user "a1"
         (db (run_updates Sample.collab "a1"
                [Sample.pdf "doc.pdf" ["x"]%byte; Sample.pdf "doc.pdf" ["y"]%byte]
                Sample.w_docs)))
  <> [Some ("x" +:+ blank_line +:+ "y")] /\
  pdfs (db (run_updates Sample.collab "a1"
              [Sample.pdf "doc.pdf" ["x"]%byte; Sample.pdf "doc.pdf" ["y"]%byte]
              Sample.w_users))
  = [].
Proof.
  split; [reflexivity |]. split; [reflexivity |].
  split; [vm_compute; reflexivity |].
  split; [vm_compute; discriminate |].
  vm_compute. reflexivity.
Qed.

(** C1, amended. For an existing user, with the database reachable and files
    that pass the checks of the handlers:
    - two updates with files named [name] turn every row of the user with
      that file name into the same row whose text is its previous text
      ([NULL] read as empty), a blank line, the text of the first file, a
      blank line, the text of the second file, and leave every other row
      as it was;
    - any non-empty sequence of such updates appends, in arrival order, each
      text behind a blank line;
    - an upload of a file named [name] followed by such updates adds one row
      whose text is the text of the uploaded file followed by the appended
      texts, each behind a blank line. *)
Theorem updates_append_behind_stored_text
    (E : collaborators) (w : world) (uid name : string) (urow : users_row) :
  connect_attempts E 0 10 = true ->
  fetchone (users_by_id uid (db w)) = Some urow ->
  (forall file1 file2 text1 text2,
     filename file1 = name -> filename file2 = name ->
     accepted_by_update E uid file1 text1 ->
     accepted_by_update E uid file2 text2 ->
     pdfs (db (run_updates E uid [file1; file2] w))
     = map (UPDATE_pdfs_row (blank_line +:+ text1 +:+ blank_line +:+ text2)
              (utcnow_date E) uid name)
           (pdfs (db w))) /\
  (forall files texts file text,
     Forall2 (fun f t => filename f = name /\ accepted_by_update E uid f t)
             (file :: files) (text :: texts) ->
     pdfs (db (run_updates E uid (file :: files) w))
     = map (UPDATE_pdfs_row (appended (text :: texts)) (utcnow_date E) uid name)
           (pdfs (db w))) /\
  (forall file0 text0 files texts file text,
     filename file0 = name ->
     accepted_by_upload E uid file0 text0 ->
     Forall2 (fun f t => filename f = name /\ accepted_by_update E uid f t)
             (file :: files) (text :: texts) ->
     pdfs (db (run_updates E uid (file :: files)
                 (snd (call (upload_pdf E file0 uid) w))))
     = (map (UPDATE_pdfs_row (appended (text :: texts)) (utcnow_date E) uid name)
            (pdfs (db w))
        ++ [ {| p_user_id := uid; p_file_name := name;
                p_upload_date := utcnow_strftime E;
                p_pdf_text := Some (text0 +:+ appended (text :: texts));
                p_last_updated := utcnow_date E |} ])%list).
Proof.
  intros Hconn Hurow. split; [| split].
  - intros file1 file2 text1 text2 Hn1 Hn2 Hok1 Hok2.
    destruct (run_updates_pdfs E uid name urow [file2] Hconn [text2] file1 text1 w Hurow)
      as [_ Hpdfs].
    { constructor; [split; assumption |].
      constructor; [split; assumption |]. constructor. }
    rewrite Hpdfs. cbn [appended]. now rewrite append_nil_r.
  - intros files texts file text Hall.
    now destruct (run_updates_pdfs E uid name urow files Hconn texts file text w Hurow Hall).
  - intros file0 text0 files texts file text Hn0 Hok0 Hall.
    rewrite (upload_pdf_success E w file0 uid text0 urow Hconn Hurow Hok0). cbn [snd].
    match goal with
    | |- context [run_updates E uid (file :: files) ?w1] =>
        destruct (run_updates_pdfs E uid name urow files Hconn texts file text w1)
          as [_ Hpdfs]; [exact Hurow | exact Hall |]
    end.
    rewrite Hpdfs. cbn [db pdfs]. rewrite map_app. f_equal. cbn [map].
    unfold UPDATE_pdfs_row at 1. cbn [p_user_id p_file_name p_pdf_text p_upload_date].
    rewrite Hn0, !String.eqb_refl. reflexivity.
Qed.

(** Alice's [doc.pdf], which holds "A", updated with "x" and then "y". *)
Lemma updates_append_behind_stored_text_witness :
  pdfs (db (run_updates Sample.collab "a1"
              [Sample.pdf "doc.pdf" ["x"]%byte; Sample.pdf "doc.pdf" ["y"]%byte]
              Sample.w_docs))
  = [ Sample.bob_doc;
      {| p_user_id := "a1"; p_file_name := "doc.pdf"; p_upload_date := "02-11-26";
         p_pdf_text := Some ("A" +:+ blank_line +:+ "x" +:+ blank_line +:+ "y");
         p_last_updated := "2026-11-03" |} ].
Proof.
  destruct (updates_append_behind_stored_text Sample.collab Sample.w_docs "a1"
              "doc.pdf" Sample.alice eq_refl eq_refl) as [Htwo _].
  rewrite (Htwo (Sample.pdf "doc.pdf" ["x"]%byte) (Sample.pdf "doc.pdf" ["y"]%byte)
             "x" "y" eq_refl eq_refl).
  - reflexivity.
  - repeat split. vm_compute. discriminate.
  - repeat split. vm_compute. discriminate.
Defined.

(** *** The clean-up in the [finally] clause *)

(** [update_pdf_data] binds [file_path] inside its [try] block, after the
    connection, the user lookup and the two checks on the file. A request
    that leaves the block before that point is turned into a 500 error by
    the [except] clause, and the [finally] clause then reads a variable that
    was never bound. *)
Lemma update_pdf_data_early_exit
    (E : collaborators) (w : world) (file : UploadFile) (uid : string) :
  connect_attempts E 0 10 = false \/
  fetchone (users_by_id uid (db w)) = None \/
  content_type file <> "application/pdf" \/
  (max_size < file_size file)%Z ->
  (exists detail f',
     try_except (update_pdf_data_try E file uid) processing_error fresh_frame w
     = (Raise (HTTPException 500 detail), f', w) /\
     file_path f' = None) /\
  call (update_pdf_data E file uid) w = (Raise (UnboundLocalError "file_path"), w).
Proof.
  intros Hearly.
  unfold update_pdf_data, update_pdf_data_try. run_handler.
  destruct (connect_attempts E 0 10) eqn:Hconn; cbn;
    [| split; [eexists _, _; split; reflexivity | reflexivity]].
  destruct (fetchone (users_by_id uid (db w))) as [urow |] eqn:Hurow; cbn;
    [| split; [eexists _, _; split; reflexivity | reflexivity]].
  destruct (String.eqb_spec (content_type file) "application/pdf") as [Hct | Hct]; cbn;
    [| split; [eexists _, _; split; reflexivity | reflexivity]].
  destruct (Z.ltb_spec max_size (file_size file)) as [Hbig | Hsmall]; cbn;
    [split; [eexists _, _; split; reflexivity | reflexivity] |].
  exfalso. destruct Hearly as [H | [H | [H | H]]];
    [discriminate | discriminate | contradiction | lia].
Qed.

Ltac cleaned_up :=
  cbn; rewrite ?fs_exists_write; cbn;
  split; [exact I | try apply fs_lookup_remove].

(** Past its two checks, [upload_pdf] answers and leaves no file at its
    temporary path, on every path through the [try] block. *)
Lemma upload_pdf_cleans_up
    (E : collaborators) (w : world) (file : UploadFile) (uid : string) :
  content_type file = "application/pdf" ->
  (file_size file <= max_size)%Z ->
  answered (fst (call (upload_pdf E file uid) w)) /\
  fs (snd (call (upload_pdf E file uid) w)) !! upload_path uid (filename file) = None.
Proof.
  intros Hct Hsize.
  unfold upload_pdf, upload_pdf_try. rewrite Hct. cbn.
  destruct (Z.ltb_spec max_size (file_size file)) as [Hbig | _]; [lia |].
  run_handler.
  destruct (open_error E (upload_path uid (filename file))) as [msg |]; cbn.
  { destruct (fs_exists (upload_path uid (filename file)) (fs w)) eqn:Hstale; cbn;
      (split; [exact I |]); [apply fs_lookup_remove | now apply fs_exists_false]. }
  rewrite fs_lookup_write.
  destruct (extract_text_from_pdf E (body file)) as [text |]; [| cleaned_up].
  cbn. destruct (connect_attempts E 0 10); [| cleaned_up].
  cbn. destruct (fetchone (users_by_id uid (db w))); cleaned_up.
Qed.

(** So does [update_pdf_data] once [file_path] is bound. *)
Lemma update_pdf_data_cleans_up_once_bound
    (E : collaborators) (w : world) (file : UploadFile) (uid : string)
    (urow : users_row) :
  connect_attempts E 0 10 = true ->
  fetchone (users_by_id uid (db w)) = Some urow ->
  content_type file = "application/pdf" ->
  (file_size file <= max_size)%Z ->
  answered (fst (call (update_pdf_data E file uid) w)) /\
  fs (snd (call (update_pdf_data E file uid) w)) !! update_path uid (filename file) = None.
Proof.
  intros Hconn Hurow Hct Hsize.
  unfold update_pdf_data, update_pdf_data_try. run_handler.
  rewrite Hconn. cbn. rewrite Hurow. cbn. rewrite Hct. cbn.
  destruct (Z.ltb_spec max_size (file_size file)) as [Hbig | _]; [lia |]. cbn.
  destruct (open_error E (update_path uid (filename file))) as [msg |]; cbn.
  { destruct (fs_exists (update_path uid (filename file)) (fs w)) eqn:Hstale; cbn;
      (split; [exact I |]); [apply fs_lookup_remove | now apply fs_exists_false]. }
  rewrite fs_lookup_write.
  destruct (extract_text_from_pdf E (body file)) as [text |]; cleaned_up.
Qed.

(** C3. The code does not do what the specification says. An update whose file is
    not a PDF or is larger than [max_size] never answers 400: the 400 error
    raised inside the [try] block is caught by [except Exception] and
    replaced by a 500 error that quotes it, and the [finally] clause then
    fails on the unbound [file_path], so the request ends in status 500.
    [upload_pdf], which makes the same two checks before its [try] block,
    answers 400 on the same file. *)
Theorem update_pdf_data_invalid_file_is_server_error
    (E : collaborators) (w : world) (file : UploadFile) (uid : string) :
  content_type file <> "application/pdf" \/ (max_size < file_size file)%Z ->
  (exists detail,
     fst (fst (try_except (update_pdf_data_try E file uid) processing_error
                 fresh_frame w))
     = Raise (HTTPException 500 detail)) /\
  (forall urow,
     connect_attempts E 0 10 = true ->
     fetchone (users_by_id uid (db w)) = Some urow ->
     content_type file <> "application/pdf" ->
     fst (fst (try_except (update_pdf_data_try E file uid) processing_error
                 fresh_frame w))
     = Raise (HTTPException 500
                ("An error accurred during file processing: "
                 +:+ "400: Invalid file type. Only PDF files are accepted!"))) /\
  http_status 200 (fst (call (update_pdf_data E file uid) w)) = 500 /\
  http_status 201 (fst (call (upload_pdf E file uid) w)) = 400.
Proof.
  intros Hbad.
  destruct (update_pdf_data_early_exit E w file uid) as [(detail & f' & Htry & _) Hcall].
  { destruct Hbad; auto. }
  split; [exists detail; now rewrite Htry |].
  split.
  - intros urow Hconn Hurow Hct. apply String.eqb_neq in Hct.
    unfold update_pdf_data_try. run_handler.
    rewrite Hconn. cbn. rewrite Hurow. cbn. rewrite Hct. reflexivity.
  - split; [now rewrite Hcall |].
    unfold upload_pdf.
    destruct (String.eqb_spec (content_type file) "application/pdf") as [Hct | Hct]; cbn;
      [| reflexivity].
    destruct Hbad as [Hne | Hbig]; [contradiction |].
    apply Z.ltb_lt in Hbig. now rewrite Hbig.
Qed.

(** Alice sends a text file to [update_pdf_data], then to [upload_pdf]. *)
Lemma update_pdf_data_invalid_file_is_server_error_witness :
  http_status 200 (fst (call (update_pdf_data Sample.collab Sample.text_file "a1")
                             Sample.w_docs)) = 500 /\
  http_status 201 (fst (call (upload_pdf Sample.collab Sample.text_file "a1")
                             Sample.w_docs)) = 400.
Proof.
  destruct (update_pdf_data_invalid_file_is_server_error Sample.collab Sample.w_docs
              Sample.text_file "a1") as (_ & _ & Hupdate & Hupload).
  - left. discriminate.
  - split; [exact Hupdate | exact Hupload].
Defined.

(** C8. The code does not do what the specification says. An update that leaves the
    [try] block before [file_path] is bound (database unreachable, user
    unknown, file not a PDF, file too large) ends with the clean-up step
    itself failing: the request raises [UnboundLocalError] from the
    [finally] clause instead of answering. No temporary file was written on
    these paths, and the world is unchanged. *)
Theorem update_pdf_data_cleanup_fails_on_early_exit
    (E : collaborators) (w : world) (file : UploadFile) (uid : string) :
  connect_attempts E 0 10 = false \/
  fetchone (users_by_id uid (db w)) = None \/
  content_type file <> "application/pdf" \/
  (max_size < file_size file)%Z ->
  call (update_pdf_data E file uid) w = (Raise (UnboundLocalError "file_path"), w) /\
  ~ answered (fst (call (update_pdf_data E file uid) w)).
Proof.
  intros Hearly.
  destruct (update_pdf_data_early_exit E w file uid Hearly) as [_ Hcall].
  split; [exact Hcall |]. rewrite Hcall. cbn. tauto.
Qed.

(** Alice sends a text file to [update_pdf_data]. *)
Lemma update_pdf_data_cleanup_fails_on_early_exit_witness :
  call (update_pdf_data Sample.collab Sample.text_file "a1") Sample.w_docs
  = (Raise (UnboundLocalError "file_path"), Sample.w_docs).
Proof.
  apply (update_pdf_data_cleanup_fails_on_early_exit Sample.collab Sample.w_docs
           Sample.text_file "a1").
  right. right. left. discriminate.
Defined.

(** ** Further properties of the handlers *)

(** *** database.py *)

Lemma connect_attempts_spec (E : collaborators) (retries i : nat) :
  connect_attempts E i retries = true <->
  exists k, (i <= k < i + retries)%nat /\ psycopg2_connect E k = true.
Proof.
  revert i. induction retries as [| r IH]; intros i.
  - split; [discriminate | intros (k & Hk & _); lia].
  - change (connect_attempts E i (S r))
      with (if psycopg2_connect E i then true else connect_attempts E (S i) r).
    destruct (psycopg2_connect E i) eqn:Hi.
    + split; [intros _; exists i; split; [lia | exact Hi] | reflexivity].
    + rewrite IH. split; intros (k & Hk & Hready).
      * exists k. split; [lia | exact Hready].
      * exists k. split; [| exact Hready].
        destruct (Nat.eq_dec k i) as [-> | Hne]; [congruence | lia].
Qed.

(** X1. [get_connection] returns a connection exactly when one of its ten
    attempts, numbered 0 to 9, succeeds, and otherwise gives up with its
    [RuntimeError]; either way it changes nothing. More generally the retry
    loop started at attempt [i] with [retries] attempts left succeeds exactly
    when one of the attempts [i], ..., [i + retries - 1] does. *)
Theorem get_connection_bounded_retry
    (E : collaborators) (f : frame) (w : world) (i retries : nat) :
  (connect_attempts E i retries = true <->
   exists k, (i <= k < i + retries)%nat /\ psycopg2_connect E k = true) /\
  (get_connection E f w = (Return (db w), f, w) <->
   exists k, (k < 10)%nat /\ psycopg2_connect E k = true) /\
  (get_connection E f w
   = (Raise (RuntimeError "Could not connect to the database after several attempts."),
      f, w) <->
   forall k, (k < 10)%nat -> psycopg2_connect E k = false).
Proof.
  split; [apply connect_attempts_spec |].
  pose proof (connect_attempts_spec E 10 0) as Hspec.
  unfold get_connection.
  destruct (connect_attempts E 0 10) eqn:Hconn.
  - destruct (proj1 Hspec eq_refl) as (k & Hk & Hready).
    split; split; try reflexivity.
    + intros _. exists k. split; [lia | exact Hready].
    + discriminate.
    + intros Hnone. rewrite (Hnone k) in Hready by lia. discriminate.
  - split; split; try reflexivity.
    + discriminate.
    + intros (k & Hk & Hready).
      assert (Htrue : false = true) by (apply Hspec; exists k; split; [lia | exact Hready]).
      discriminate.
    + intros _ k Hk. destruct (psycopg2_connect E k) eqn:Hready; [| reflexivity].
      assert (Htrue : false = true) by (apply Hspec; exists k; split; [lia | exact Hready]).
      discriminate.
Qed.

(** *** register_user and user_login *)

(** The row [register_user] inserts. *)
Lemma register_user_outcome
    (E : collaborators) (w : world) (uuid : string) (user : UserRegistration) :
  (exists e, call (register_user E uuid user) w = (Raise e, w)) \/
  (fetchone (users_by_id_or_email uuid (email user) (db w)) = None /\
   call (register_user E uuid user) w
   = (Return [ ("message", "User registered successfully!");
               ("uuid", uuid);
               ("user_name", user_name user);
               ("email", email user);
               ("Registration_date", utcnow_strftime E) ],
      {| db := {| users := users (db w) ++
                    [ {| u_user_id := uuid; u_user_name := user_name user;
                         u_email := email user;
                         u_password := bcrypt_hash E (substring 0 72 (password user));
                         u_registration_date := utcnow_strftime E |} ];
                  pdfs := pdfs (db w) |};
         fs := fs w; trace := trace w |})).
Proof.
  unfold register_user.
  destruct (user_name user =? ""); [left; eexists; reflexivity |].
  destruct (15 <? String.length (user_name user))%nat; [left; eexists; reflexivity |].
  run_handler.
  destruct (connect_attempts E 0 10); cbn; [| left; eexists; reflexivity].
  destruct (fetchone (users_by_id_or_email uuid (email user) (db w))) as [row |] eqn:Hrow;
    cbn; [| right; split; reflexivity].
  apply fetchone_filter_Some in Hrow as [_ Hmatch]. cbn in Hmatch.
  destruct (u_user_id row =? uuid); cbn; [left; eexists; reflexivity |].
  destruct (u_email row =? email user); cbn; [left; eexists; reflexivity |].
  discriminate Hmatch.
Qed.

Lemma users_free_of (uuid mail : string) (d : database) :
  fetchone (users_by_id_or_email uuid mail d) = None ->
  forall r, In r (users d) -> u_user_id r <> uuid /\ u_email r <> mail.
Proof.
  intros Hnone r Hr.
  pose proof (fetchone_filter_None _ _ Hnone r Hr) as Hno. cbn in Hno.
  apply orb_false_iff in Hno as [Hid Hmail].
  split; now apply String.eqb_neq.
Qed.


Lemma NoDup_map_snoc {A B : Type} (key : A -> B) (l : list A) (x : A) :
  List.NoDup (map key l) ->
  (forall r, In r l -> key r <> key x) ->
  List.NoDup (map key (l ++ [x])).
Proof.
  intros Hnd Hfresh. rewrite map_app.
  apply List.NoDup_app; [exact Hnd | repeat constructor; intros [] |].
  intros k Hk [<- | []].
  apply in_map_iff in Hk as (r & Hrk & Hr). now apply (Hfresh r Hr).
Qed.

(** X3. Registration keeps identifiers pairwise distinct and emails pairwise
    distinct: if both hold of [users] before a call of [register_user], both
    hold after it, whatever the request and whatever its outcome. *)
Theorem register_user_keeps_users_unique
    (E : collaborators) (w : world) (uuid : string) (user : UserRegistration) :
  List.NoDup (map u_user_id (users (db w))) ->
  List.NoDup (map u_email (users (db w))) ->
  List.NoDup (map u_user_id (users (db (snd (call (register_user E uuid user) w))))) /\
  List.NoDup (map u_email (users (db (snd (call (register_user E uuid user) w))))).
Proof.
  intros Hids Hmails.
  destruct (register_user_outcome E w uuid user) as [[e ->] | [Hfree ->]];
    [split; assumption |].
  cbn. pose proof (users_free_of uuid (email user) (db w) Hfree) as Hfresh.
  split; apply NoDup_map_snoc; try assumption; intros r Hr; cbn; now apply Hfresh.
Qed.

Lemma register_user_keeps_users_unique_witness :
  map u_user_id
      (users (db (snd (call (register_user Sample.collab "c3"
                               (mkUserRegistration "carol" "carol@x.com" "pw"))
                            Sample.w_users))))
  = ["a1"; "b2"; "c3"] /\
  List.NoDup (map u_email
      (users (db (snd (call (register_user Sample.collab "c3"
                               (mkUserRegistration "carol" "carol@x.com" "pw"))
                            Sample.w_users))))).
Proof.
  split; [reflexivity |].
  apply (register_user_keeps_users_unique Sample.collab Sample.w_users "c3"
           (mkUserRegistration "carol" "carol@x.com" "pw")).
  - repeat constructor; cbn; intuition discriminate.
  - repeat constructor; cbn; intuition discriminate.
Defined.

Lemma filter_nil_of_none {A : Type} (P : A -> bool) (l : list A) :
  (forall r, In r l -> P r = false) -> List.filter P l = [].
Proof.
  induction l as [| x xs IH]; intros Hnone; [reflexivity |].
  cbn. rewrite (Hnone x) by now left.
  apply IH. intros r Hr. apply Hnone. now right.
Qed.

Lemma filter_all {A : Type} (P : A -> bool) (l : list A) :
  (forall r, In r l -> P r = true) -> List.filter P l = l.
Proof.
  induction l as [| x xs IH]; intros Hall; [reflexivity |].
  cbn. rewrite (Hall x) by now left.
  f_equal. apply IH. intros r Hr. apply Hall. now right.
Qed.



(** X5. [user_login] never changes the world, and it hands out a token only
    for a row of [users] whose name or email is the identifier of the
    request and whose stored hash verifies the password of the request: the
    token is signed for the identifier of that row. *)
Theorem user_login_is_sound_and_read_only
    (E : collaborators) (w : world) (login_data : LoginInput) :
  snd (call (user_login E login_data) w) = w /\
  (forall resp,
     fst (call (user_login E login_data) w) = Return resp ->
     exists row,
       In row (users (db w)) /\
       (u_user_name row = identifier login_data \/ u_email row = identifier login_data) /\
       bcrypt_verify E (login_password login_data) (u_password row) = true /\
       resp = [ ("message", "Login successful");
                ("access_token", sign_jwt E (u_user_id row));
                ("token_type", "bearer") ]).
Proof.
  unfold user_login. run_handler.
  destruct (connect_attempts E 0 10); cbn; [| split; [reflexivity | discriminate]].
  destruct (fetchone (users_by_name_or_email (identifier login_data) (db w)))
    as [row |] eqn:Hrow; cbn; [| split; [reflexivity | discriminate]].
  destruct (bcrypt_verify E (login_password login_data) (u_password row)) eqn:Hverify;
    cbn; [| split; [reflexivity | discriminate]].
  split; [reflexivity |].
  intros resp H. injection H as <-.
  apply fetchone_filter_Some in Hrow as [Hin Hmatch].
  apply orb_true_iff in Hmatch. rewrite !String.eqb_eq in Hmatch.
  exists row. repeat split; assumption.
Qed.

(** *** delete_pdf_data *)

Lemma delete_pdf_data_outcome (E : collaborators) (w : world) (uid : string) :
  (exists e, call (delete_pdf_data E uid) w = (Raise e, w) /\
             (connect_attempts E 0 10 = false \/
              fetchone (users_by_id uid (db w)) = None)) \/
  (connect_attempts E 0 10 = true /\
   (exists urow, fetchone (users_by_id uid (db w)) = Some urow) /\
   pdfs_by_user uid (db w) = [] /\
   call (delete_pdf_data E uid) w
   = (Return [ ("message", "No PDF data found for UUID '" +:+ uid +:+ "'") ], w)) \/
  (connect_attempts E 0 10 = true /\
   (exists urow, fetchone (users_by_id uid (db w)) = Some urow) /\
   pdfs_by_user uid (db w) <> [] /\
   call (delete_pdf_data E uid) w
   = (Return [ ("message", "Data for UUID '" +:+ uid +:+ "' has been deleted!") ],
      {| db := DELETE_pdfs_by_user uid (db w); fs := fs w; trace := trace w |})).
Proof.
  unfold delete_pdf_data, execute_rowcount. run_handler.
  destruct (connect_attempts E 0 10); cbn; [| left; eexists; split; [reflexivity | now left]].
  destruct (fetchone (users_by_id uid (db w))) as [urow |]; cbn;
    [| left; eexists; split; [reflexivity | now right]].
  right.
  destruct (pdfs_by_user uid (db w)) as [| row rows] eqn:Hdocs; cbn.
  - left. split; [reflexivity |]. split; [eauto |]. split; reflexivity.
  - right. split; [reflexivity |]. split; [eauto |]. split; [discriminate | reflexivity].
Qed.

Lemma pdfs_by_user_after_delete (uid : string) (d : database) :
  pdfs_by_user uid (DELETE_pdfs_by_user uid d) = [].
Proof.
  unfold pdfs_by_user, DELETE_pdfs_by_user. cbn.
  apply filter_nil_of_none. intros r Hr.
  apply filter_In in Hr as [_ Hr]. now apply negb_true_iff in Hr.
Qed.

Lemma pdfs_by_user_nil (uid : string) (d : database) :
  pdfs_by_user uid d = [] ->
  List.filter (fun r => negb (p_user_id r =? uid)) (pdfs d) = pdfs d.
Proof.
  intros Hnone. apply filter_all. intros r Hr.
  destruct (p_user_id r =? uid) eqn:Hid; [| reflexivity].
  assert (Hin : In r (pdfs_by_user uid d)) by (apply filter_In; auto).
  rewrite Hnone in Hin. destruct Hin.
Qed.

(** X6. After a [delete_pdf_data] that returns, table [pdfs] holds the rows
    of the other users, in their order, and no row of the caller; table
    [users], the scratch directory and the trace are as before. The message
    says "No PDF data found" exactly when the caller had no row. *)
Theorem delete_pdf_data_removes_only_the_callers_rows
    (E : collaborators) (w w' : world) (uid : string) (resp : response) :
  call (delete_pdf_data E uid) w = (Return resp, w') ->
  pdfs (db w') = List.filter (fun r => negb (p_user_id r =? uid)) (pdfs (db w)) /\
  (forall r, In r (pdfs (db w')) -> p_user_id r <> uid) /\
  users (db w') = users (db w) /\ fs w' = fs w /\ trace w' = trace w /\
  (resp = [ ("message", "No PDF data found for UUID '" +:+ uid +:+ "'") ] <->
   pdfs_by_user uid (db w) = []).
Proof.
  intros Hcall.
  assert (Hgone : forall l r,
            In r (List.filter (fun r => negb (p_user_id r =? uid)) l) -> p_user_id r <> uid).
  { intros l r Hr. apply filter_In in Hr as [_ Hr].
    now apply negb_true_iff, String.eqb_neq in Hr. }
  destruct (delete_pdf_data_outcome E w uid)
    as [(e & He & _) | [(_ & _ & Hnone & Hret) | (_ & _ & Hsome & Hret)]];
    rewrite Hcall in *; [discriminate | |]; injection Hret as -> ->.
  - split; [now rewrite (pdfs_by_user_nil uid (db w) Hnone) |].
    split.
    { intros r Hr. apply (Hgone (pdfs (db w))).
      now rewrite (pdfs_by_user_nil uid (db w) Hnone). }
    do 3 (split; [reflexivity |]).
    split; [intros _; exact Hnone | reflexivity].
  - cbn. split; [reflexivity |]. split; [apply Hgone |].
    do 3 (split; [reflexivity |]).
    split; [| intros Hnone; contradiction].
    intros Hmsg. injection Hmsg as Hmsg. cbv in Hmsg. discriminate Hmsg.
Qed.

(** Alice deletes her documents; bob's stay. *)
Lemma delete_pdf_data_removes_only_the_callers_rows_witness :
  pdfs (db (snd (call (delete_pdf_data Sample.collab "a1") Sample.w_docs)))
  = [Sample.bob_doc].
Proof.
  destruct (delete_pdf_data_removes_only_the_callers_rows Sample.collab Sample.w_docs
              (snd (call (delete_pdf_data Sample.collab "a1") Sample.w_docs)) "a1"
              [("message", "Data for UUID 'a1' has been deleted!")])
    as [Hpdfs _].
  - vm_compute. reflexivity.
  - rewrite Hpdfs. reflexivity.
Defined.

(** X7. Deleting the documents twice: whenever a [delete_pdf_data] has
    returned, the same request made again returns the "No PDF data found"
    message, not an error, and changes nothing. *)
Theorem delete_pdf_data_twice
    (E : collaborators) (w w' : world) (uid : string) (resp : response) :
  call (delete_pdf_data E uid) w = (Return resp, w') ->
  call (delete_pdf_data E uid) w'
  = (Return [ ("message", "No PDF data found for UUID '" +:+ uid +:+ "'") ], w').
Proof.
  intros Hcall.
  assert (Hstate : connect_attempts E 0 10 = true /\
                   (exists urow, fetchone (users_by_id uid (db w')) = Some urow) /\
                   pdfs_by_user uid (db w') = []).
  { destruct (delete_pdf_data_outcome E w uid)
      as [(e & He & _) | [(Hconn & Hurow & Hnone & Hret) | (Hconn & Hurow & _ & Hret)]];
      rewrite Hcall in *; [discriminate | |]; injection Hret as -> ->.
    - auto.
    - split; [exact Hconn |]. split; [exact Hurow |]. apply pdfs_by_user_after_delete. }
  destruct Hstate as (Hconn & [urow Hurow] & Hnone).
  destruct (delete_pdf_data_outcome E w' uid)
    as [(e & _ & [Hoff | Hmissing]) | [(_ & _ & _ & Hret) | (_ & _ & Hsome & _)]].
  - congruence.
  - congruence.
  - exact Hret.
  - contradiction.
Qed.

(** Alice deletes her documents twice. *)
Lemma delete_pdf_data_twice_witness :
  fst (call (delete_pdf_data Sample.collab "a1")
            (snd (call (delete_pdf_data Sample.collab "a1") Sample.w_docs)))
  = Return [ ("message", "No PDF data found for UUID 'a1'") ].
Proof.
  refine (f_equal fst
            (delete_pdf_data_twice Sample.collab Sample.w_docs
               (snd (call (delete_pdf_data Sample.collab "a1") Sample.w_docs)) "a1"
               [("message", "Data for UUID 'a1' has been deleted!")] _)).
  vm_compute. reflexivity.
Defined.

(** X8. Delete the documents, then ask: after a [delete_pdf_data] that
    returned, a query of the same user fails with 404 "No PDF data found for
    this user"; the LLM client is not called. *)
Theorem delete_pdf_data_then_query
    (E : collaborators) (w w' : world) (uid query : string) (resp : response) :
  call (delete_pdf_data E uid) w = (Return resp, w') ->
  call (query_data E query uid) w'
  = (Raise (HTTPException 404 "No PDF data found for this user"), w').
Proof.
  intros Hcall.
  assert (Hstate : connect_attempts E 0 10 = true /\
                   (exists urow, fetchone (users_by_id uid (db w')) = Some urow) /\
                   pdfs_by_user uid (db w') = []).
  { destruct (delete_pdf_data_outcome E w uid)
      as [(e & He & _) | [(Hconn & Hurow & Hnone & Hret) | (Hconn & Hurow & _ & Hret)]];
      rewrite Hcall in *; [discriminate | |]; injection Hret as -> ->.
    - auto.
    - split; [exact Hconn |]. split; [exact Hurow |]. apply pdfs_by_user_after_delete. }
  destruct Hstate as (Hconn & [urow Hurow] & Hnone).
  unfold query_data. run_handler. rewrite Hconn. cbn. rewrite Hurow. cbn.
  rewrite Hnone. reflexivity.
Qed.

(** Alice deletes her documents and asks a question. *)
Lemma delete_pdf_data_then_query_witness :
  fst (call (query_data Sample.collab "q" "a1")
            (snd (call (delete_pdf_data Sample.collab "a1") Sample.w_docs)))
  = Raise (HTTPException 404 "No PDF data found for this user").
Proof.
  refine (f_equal fst
            (delete_pdf_data_then_query Sample.collab Sample.w_docs
               (snd (call (delete_pdf_data Sample.collab "a1") Sample.w_docs)) "a1" "q"
               [("message", "Data for UUID 'a1' has been deleted!")] _)).
  vm_compute. reflexivity.
Defined.

(** *** get_all_users *)

(** X9. [get_all_users] never changes the world, and it returns only to a
    caller who has a row in [users] and whose identifier is the hard-coded
    administrator identifier. What it returns is then the identifier of
    every row of [users], in table order, with their number; the list
    contains the caller, so the empty listing of the [if not rows] branch is
    never returned. *)
Theorem get_all_users_is_admin_only
    (E : collaborators) (w : world) (uid : string) :
  snd (call (get_all_users E uid) w) = w /\
  (forall listing,
     fst (call (get_all_users E uid) w) = Return listing ->
     uid = ADMIN_UUID /\
     (exists row, In row (users (db w)) /\ u_user_id row = uid) /\
     uuids listing = map u_user_id (users (db w)) /\
     total_users listing = length (users (db w)) /\
     In uid (uuids listing) /\
     (0 < total_users listing)%nat).
Proof.
  unfold get_all_users. run_handler.
  destruct (connect_attempts E 0 10); cbn; [| split; [reflexivity | discriminate]].
  destruct (fetchone (users_by_id uid (db w))) as [urow |] eqn:Hurow; cbn;
    [| split; [reflexivity | discriminate]].
  apply fetchone_filter_Some in Hurow as [Hin Hid]. apply String.eqb_eq in Hid.
  destruct (String.eqb_spec uid ADMIN_UUID) as [Hadmin | Hother]; cbn;
    [| split; [reflexivity | discriminate]].
  destruct (users (db w)) as [| first others] eqn:Husers; [destruct Hin |].
  cbn. split; [reflexivity |].
  intros listing H. injection H as <-. cbn.
  split; [exact Hadmin |]. split; [eauto |].
  split; [reflexivity |]. split; [now rewrite length_map |].
  split; [| lia].
  rewrite <- Hid. change (In (u_user_id urow) (map u_user_id (first :: others))).
  now apply in_map.
Qed.



(** *** upload_pdf and update_pdf_data on every path *)

Lemma fs_remove_write (path : string) (data : bytes) (files : gmap string bytes) :
  fs_remove path (fs_write path data files) = fs_remove path files.
Proof. unfold fs_remove, fs_write. apply delete_insert_eq. Qed.

Lemma fs_remove_absent (path : string) (files : gmap string bytes) :
  fs_exists path files = false -> files = fs_remove path files.
Proof.
  intros Habsent. unfold fs_remove. symmetry. apply delete_id.
  now apply fs_exists_false.
Qed.

(** The three ways a call of [upload_pdf] ends. *)
Lemma upload_pdf_outcome
    (E : collaborators) (w : world) (file : UploadFile) (uid : string) :
  ((content_type file <> "application/pdf" \/ (max_size < file_size file)%Z) /\
   exists detail, call (upload_pdf E file uid) w = (Raise (HTTPException 400 detail), w)) \/
  (content_type file = "application/pdf" /\ (file_size file <= max_size)%Z /\
   exists detail,
     fst (call (upload_pdf E file uid) w) = Raise (HTTPException 500 detail) /\
     db (snd (call (upload_pdf E file uid) w)) = db w /\
     fs (snd (call (upload_pdf E file uid) w))
     = fs_remove (upload_path uid (filename file)) (fs w)) \/
  (exists urow text,
     connect_attempts E 0 10 = true /\
     fetchone (users_by_id uid (db w)) = Some urow /\
     accepted_by_upload E uid file text).
Proof.
  destruct (String.eqb_spec (content_type file) "application/pdf") as [Hct | Hct].
  2:{ left. split; [now left |]. apply String.eqb_neq in Hct.
      unfold upload_pdf. rewrite Hct. eexists. reflexivity. }
  destruct (Z.ltb_spec max_size (file_size file)) as [Hbig | Hsize].
  { left. split; [now right |]. apply Z.ltb_lt in Hbig.
    unfold upload_pdf. rewrite Hct, Hbig. eexists. reflexivity. }
  right.
  destruct (open_error E (upload_path uid (filename file))) as [msg |] eqn:Hopen.
  { left. split; [exact Hct |]. split; [exact Hsize |].
    unfold upload_pdf, upload_pdf_try. rewrite Hct. cbn.
    destruct (Z.ltb_spec max_size (file_size file)); [lia |].
    run_handler. rewrite Hopen. cbn.
    destruct (fs_exists (upload_path uid (filename file)) (fs w)) eqn:Hstale; cbn;
      eexists; (split; [reflexivity |]); (split; [reflexivity |]);
      [reflexivity | now apply fs_remove_absent]. }
  assert (Hfail : forall text,
            extract_text_from_pdf E (body file) = text ->
            text = None \/ connect_attempts E 0 10 = false \/
            fetchone (users_by_id uid (db w)) = None ->
            exists detail,
              fst (call (upload_pdf E file uid) w) = Raise (HTTPException 500 detail) /\
              db (snd (call (upload_pdf E file uid) w)) = db w /\
              fs (snd (call (upload_pdf E file uid) w))
              = fs_remove (upload_path uid (filename file)) (fs w)).
  { intros text Htext Hwhy.
    unfold upload_pdf, upload_pdf_try. rewrite Hct. cbn.
    destruct (Z.ltb_spec max_size (file_size file)); [lia |].
    run_handler. rewrite Hopen. cbn. rewrite fs_lookup_write, Htext.
    destruct text as [t |]; cbn.
    - destruct (connect_attempts E 0 10); cbn.
      + destruct (fetchone (users_by_id uid (db w))); cbn.
        * destruct Hwhy as [? | [? | ?]]; discriminate.
        * rewrite fs_exists_write. cbn. rewrite fs_remove_write.
          eexists. repeat split.
      + rewrite fs_exists_write. cbn. rewrite fs_remove_write.
        eexists. repeat split.
    - rewrite fs_exists_write. cbn. rewrite fs_remove_write.
      eexists. repeat split. }
  destruct (extract_text_from_pdf E (body file)) as [text |] eqn:Htext.
  2:{ left. split; [exact Hct |]. split; [exact Hsize |]. apply (Hfail None); auto. }
  destruct (connect_attempts E 0 10) eqn:Hconn.
  2:{ left. split; [exact Hct |]. split; [exact Hsize |]. apply (Hfail (Some text)); auto. }
  destruct (fetchone (users_by_id uid (db w))) as [urow |] eqn:Hurow.
  2:{ left. split; [exact Hct |]. split; [exact Hsize |]. apply (Hfail (Some text)); auto. }
  right. exists urow, text. repeat split; assumption.
Qed.

(** X11. [upload_pdf] inserts at most one row and is all-or-nothing on the
    database: a call that raises leaves both tables as they were; a call
    that returns has left [users] alone and appended to [pdfs] one row, with
    the caller's identifier, the file's name and the text extracted from
    the file. *)
Theorem upload_pdf_inserts_one_row_or_nothing
    (E : collaborators) (w : world) (file : UploadFile) (uid : string) :
  match call (upload_pdf E file uid) w with
  | (Raise _, w') => db w' = db w
  | (Return _, w') =>
      users (db w') = users (db w) /\
      exists text,
        extract_text_from_pdf E (body file) = Some text /\
        pdfs (db w')
        = (pdfs (db w) ++
           [ {| p_user_id := uid; p_file_name := filename file;
                p_upload_date := utcnow_strftime E; p_pdf_text := Some text;
                p_last_updated := utcnow_strftime E |} ])%list
  end.
Proof.
  destruct (upload_pdf_outcome E w file uid)
    as [[_ [detail ->]] | [(_ & _ & detail & Hfst & Hdb & _) | (urow & text & Hc & Hu & Hok)]].
  - reflexivity.
  - destruct (call (upload_pdf E file uid) w) as [o w']. cbn in *. now subst o.
  - rewrite (upload_pdf_success E w file uid text urow Hc Hu Hok). cbn.
    split; [reflexivity |]. exists text. split; [apply Hok | reflexivity].
Qed.


(** X13. An upload by a caller who has no row in [users], with a file that
    passes the checks and yields text: the file is written, read by the
    extractor and removed, nothing is inserted, and the request ends in
    status 500 with a message that quotes the 404 raised inside the [try]
    block. *)
Theorem upload_pdf_unknown_user_is_server_error
    (E : collaborators) (w : world) (file : UploadFile) (uid text : string) :
  connect_attempts E 0 10 = true ->
  fetchone (users_by_id uid (db w)) = None ->
  accepted_by_upload E uid file text ->
  call (upload_pdf E file uid) w
  = (Raise (HTTPException 500
              ("An error accurred during file processing: "
               +:+ "404: User ID not found")),
     {| db := db w;
        fs := fs_remove (upload_path uid (filename file)) (fs w);
        trace := trace w ++ [ FileWritten (upload_path uid (filename file));
                              TextExtracted (upload_path uid (filename file));
                              FileRemoved (upload_path uid (filename file)) ] |}).
Proof.
  intros Hconn Hnone (Hct & Hsize & Hopen & Htext).
  unfold upload_pdf, upload_pdf_try. rewrite Hct. cbn.
  destruct (Z.ltb_spec max_size (file_size file)); [lia |].
  run_handler. rewrite Hopen. cbn. rewrite fs_lookup_write, Htext. cbn.
  rewrite Hconn. cbn. rewrite Hnone. cbn. rewrite fs_exists_write. cbn.
  rewrite fs_remove_write, <- !app_assoc. reflexivity.
Qed.

(** A token for an identifier that has no row, used for an upload. *)
Lemma upload_pdf_unknown_user_is_server_error_witness :
  http_status 201
    (fst (call (upload_pdf Sample.collab (Sample.pdf "doc.pdf" ["x"]%byte) "zz")
               Sample.w_users)) = 500 /\
  db (snd (call (upload_pdf Sample.collab (Sample.pdf "doc.pdf" ["x"]%byte) "zz")
                Sample.w_users)) = db Sample.w_users.
Proof.
  rewrite (upload_pdf_unknown_user_is_server_error Sample.collab Sample.w_users
             (Sample.pdf "doc.pdf" ["x"]%byte) "zz" "x").
  - split; reflexivity.
  - reflexivity.
  - reflexivity.
  - repeat split. vm_compute. discriminate.
Defined.




(** X16. The scratch directory after an upload. For a file that passes the
    two checks, on every path through the handler (file not writable,
    extraction failed, database unreachable, user unknown, success) the
    directory afterwards is the directory before without the temporary path
    of the request: no other file is touched, and a stale file at that path
    is removed too. *)
Theorem upload_pdf_scratch_directory
    (E : collaborators) (w : world) (file : UploadFile) (uid : string) :
  content_type file = "application/pdf" ->
  (file_size file <= max_size)%Z ->
  fs (snd (call (upload_pdf E file uid) w))
  = fs_remove (upload_path uid (filename file)) (fs w) /\
  forall path, path <> upload_path uid (filename file) ->
               fs (snd (call (upload_pdf E file uid) w)) !! path = fs w !! path.
Proof.
  intros Hct Hsize.
  assert (Hfs : fs (snd (call (upload_pdf E file uid) w))
                = fs_remove (upload_path uid (filename file)) (fs w)).
  { destruct (upload_pdf_outcome E w file uid)
      as [[Hbad _] | [(_ & _ & detail & _ & _ & Hfs) | (urow & text & Hc & Hu & Hok)]].
    - destruct Hbad; [contradiction | lia].
    - exact Hfs.
    - rewrite (upload_pdf_success E w file uid text urow Hc Hu Hok). cbn.
      apply fs_remove_write. }
  split; [exact Hfs |].
  intros path Hpath. rewrite Hfs. unfold fs_remove.
  apply lookup_delete_ne. congruence.
Qed.

(** Alice uploads [doc.pdf] while a stale copy and another file lie in the
    scratch directory. *)
Lemma upload_pdf_scratch_directory_witness :
  fs (snd (call (upload_pdf Sample.collab (Sample.pdf "doc.pdf" ["x"]%byte) "a1")
                {| db := db Sample.w_users;
                   fs := fs_write (upload_path "a1" "doc.pdf") ["o"]%byte
                           (fs_write "/temp/cag_uploads/b2_notes.pdf" ["n"]%byte ∅);
                   trace := [] |}))
  = fs_write "/temp/cag_uploads/b2_notes.pdf" ["n"]%byte ∅.
Proof.
  destruct (upload_pdf_scratch_directory Sample.collab
              {| db := db Sample.w_users;
                 fs := fs_write (upload_path "a1" "doc.pdf") ["o"]%byte
                         (fs_write "/temp/cag_uploads/b2_notes.pdf" ["n"]%byte ∅);
                 trace := [] |}
              (Sample.pdf "doc.pdf" ["x"]%byte) "a1") as [Hfs _].
  - reflexivity.
  - vm_compute. discriminate.
  - rewrite Hfs. vm_compute. reflexivity.
Defined.

(** *** Uploads, updates and queries in sequence *)

Lemma query_data_success
    (E : collaborators) (w : world) (query uid text : string)
    (urow : users_row) (row : pdfs_row) :
  connect_attempts E 0 10 = true ->
  fetchone (users_by_id uid (db w)) = Some urow ->
  fetchone (pdfs_by_user uid (db w)) = Some row ->
  p_pdf_text row = Some text ->
  (text =? "") = false ->
  call (query_data E query uid) w
  = (Return [ ("uuid", uid); ("user", u_user_name urow); ("query", query);
              ("LLM_response", get_llm_response E text query) ],
     {| db := db w; fs := fs w; trace := trace w ++ [LLMCalled text query] |}).
Proof.
  intros Hconn Hurow Hrow Hcol Htext.
  unfold query_data. run_handler. rewrite Hconn. cbn.
  rewrite Hurow. cbn. rewrite Hrow. cbn. rewrite Hcol, Htext. reflexivity.
Qed.

Lemma query_data_without_text
    (E : collaborators) (w : world) (query uid : string)
    (urow : users_row) (row : pdfs_row) :
  connect_attempts E 0 10 = true ->
  fetchone (users_by_id uid (db w)) = Some urow ->
  fetchone (pdfs_by_user uid (db w)) = Some row ->
  p_pdf_text row = None \/ p_pdf_text row = Some "" ->
  call (query_data E query uid) w
  = (Raise (HTTPException 404 "No PDF data found for this user"), w).
Proof.
  intros Hconn Hurow Hrow Hcol.
  unfold query_data. run_handler. rewrite Hconn. cbn.
  rewrite Hurow. cbn. rewrite Hrow. cbn.
  destruct Hcol as [-> | ->]; reflexivity.
Qed.

(** The answer of [query_data] depends on the world through the two rows it
    fetches. *)
Lemma query_data_same_rows
    (E : collaborators) (w1 w2 : world) (query uid : string) :
  fetchone (users_by_id uid (db w1)) = fetchone (users_by_id uid (db w2)) ->
  fetchone (pdfs_by_user uid (db w1)) = fetchone (pdfs_by_user uid (db w2)) ->
  fst (call (query_data E query uid) w1) = fst (call (query_data E query uid) w2).
Proof.
  intros Husers Hpdfs. unfold query_data. run_handler.
  destruct (connect_attempts E 0 10); cbn; [| reflexivity].
  rewrite Husers.
  destruct (fetchone (users_by_id uid (db w2))) as [urow |]; cbn; [| reflexivity].
  rewrite Hpdfs.
  destruct (fetchone (pdfs_by_user uid (db w2))) as [row |]; cbn; [| reflexivity].
  destruct (p_pdf_text row) as [text |]; cbn; [| reflexivity].
  destruct (text =? ""); reflexivity.
Qed.

Lemma fetchone_app_Some {A : Type} (l1 l2 : list A) (x : A) :
  fetchone l1 = Some x -> fetchone (l1 ++ l2) = Some x.
Proof. destruct l1; [discriminate | auto]. Qed.

(** X17. Upload, then ask. After the first upload of a user (no row of
    [pdfs] was theirs) with a file that yields a non-empty text, the user's
    query is answered by the LLM client on exactly that text. *)
Theorem upload_pdf_then_query
    (E : collaborators) (w : world) (file : UploadFile) (uid text query : string)
    (urow : users_row) :
  connect_attempts E 0 10 = true ->
  fetchone (users_by_id uid (db w)) = Some urow ->
  accepted_by_upload E uid file text ->
  text <> "" ->
  pdfs_by_user uid (db w) = [] ->
  fst (call (query_data E query uid) (snd (call (upload_pdf E file uid) w)))
  = Return [ ("uuid", uid); ("user", u_user_name urow); ("query", query);
             ("LLM_response", get_llm_response E text query) ].
Proof.
  intros Hconn Hurow Hok Htext Hfirst.
  rewrite (upload_pdf_success E w file uid text urow Hconn Hurow Hok). cbn [snd].
  rewrite (query_data_success E _ query uid text urow
             {| p_user_id := uid; p_file_name := filename file;
                p_upload_date := utcnow_strftime E; p_pdf_text := Some text;
                p_last_updated := utcnow_strftime E |});
    [reflexivity | exact Hconn | exact Hurow | | reflexivity | now apply String.eqb_neq].
  unfold pdfs_by_user in *. cbn. rewrite List.filter_app, Hfirst. cbn.
  rewrite String.eqb_refl. reflexivity.
Qed.

(** Bob, who has no document in this table, uploads one and asks. *)
Lemma upload_pdf_then_query_witness :
  fst (call (query_data Sample.collab "q" "b2")
            (snd (call (upload_pdf Sample.collab (Sample.pdf "b.pdf" ["h"; "i"]%byte) "b2")
                       Sample.w_users)))
  = Return [ ("uuid", "b2"); ("user", "bob"); ("query", "q");
             ("LLM_response", "Re: q | hi") ].
Proof.
  apply (upload_pdf_then_query Sample.collab Sample.w_users
           (Sample.pdf "b.pdf" ["h"; "i"]%byte) "b2" "hi" "q" Sample.bob).
  - reflexivity.
  - reflexivity.
  - repeat split. vm_compute. discriminate.
  - discriminate.
  - reflexivity.
Defined.

(** X18. Only the oldest document is consulted. For a user who already has
    a row in [pdfs], a further successful upload changes nothing in what
    [query_data] answers: the query reads the first row of the user, and the
    new row comes after it. *)
Theorem upload_pdf_does_not_change_the_answer
    (E : collaborators) (w : world) (file : UploadFile) (uid text query : string)
    (urow : users_row) (row : pdfs_row) :
  connect_attempts E 0 10 = true ->
  fetchone (users_by_id uid (db w)) = Some urow ->
  accepted_by_upload E uid file text ->
  fetchone (pdfs_by_user uid (db w)) = Some row ->
  fst (call (upload_pdf E file uid) w)
  = Return [ ("message", "File uploaded and text extracted successfully");
             ("uuid", uid); ("file_name", filename file);
             ("upload_date", utcnow_strftime E);
             ("last_updated", utcnow_strftime E) ] /\
  fst (call (query_data E query uid) (snd (call (upload_pdf E file uid) w)))
  = fst (call (query_data E query uid) w).
Proof.
  intros Hconn Hurow Hok Hrow.
  rewrite (upload_pdf_success E w file uid text urow Hconn Hurow Hok). cbn [fst snd].
  split; [reflexivity |].
  apply query_data_same_rows; [reflexivity |].
  rewrite Hrow. unfold pdfs_by_user in *. cbn. rewrite List.filter_app.
  now apply fetchone_app_Some.
Qed.

(** Alice, whose [doc.pdf] holds "A", uploads a second file and asks. *)
Lemma upload_pdf_does_not_change_the_answer_witness :
  fst (call (query_data Sample.collab "q" "a1")
            (snd (call (upload_pdf Sample.collab (Sample.pdf "new.pdf" ["n"]%byte) "a1")
                       Sample.w_docs)))
  = Return [ ("uuid", "a1"); ("user", "alice"); ("query", "q");
             ("LLM_response", "Re: q | A") ].
Proof.
  destruct (upload_pdf_does_not_change_the_answer Sample.collab Sample.w_docs
              (Sample.pdf "new.pdf" ["n"]%byte) "a1" "n" "q" Sample.alice
              Sample.alice_doc) as [_ Hsame].
  - reflexivity.
  - reflexivity.
  - repeat split. vm_compute. discriminate.
  - reflexivity.
  - rewrite Hsame. reflexivity.
Defined.

Lemma blank_line_nonempty (text : string) : (blank_line +:+ text =? "") = false.
Proof. reflexivity. Qed.

(** X19. A file without text. When the extractor returns the empty string
    (not [None]) for the first upload of a user, the upload succeeds with
    status 201 and stores a row with empty text, and the user's query then
    fails with 404 "No PDF data found for this user". After an update with a
    file of the same name the query is answered on a blank line followed by
    the text of that file. *)
Theorem upload_pdf_without_text
    (E : collaborators) (w : world) (file : UploadFile) (uid query : string)
    (urow : users_row) :
  connect_attempts E 0 10 = true ->
  fetchone (users_by_id uid (db w)) = Some urow ->
  accepted_by_upload E uid file "" ->
  pdfs_by_user uid (db w) = [] ->
  http_status 201 (fst (call (upload_pdf E file uid) w)) = 201 /\
  fst (call (query_data E query uid) (snd (call (upload_pdf E file uid) w)))
  = Raise (HTTPException 404 "No PDF data found for this user") /\
  (forall file2 text2,
     filename file2 = filename file ->
     accepted_by_update E uid file2 text2 ->
     fst (call (query_data E query uid)
               (snd (call (update_pdf_data E file2 uid)
                          (snd (call (upload_pdf E file uid) w)))))
     = Return [ ("uuid", uid); ("user", u_user_name urow); ("query", query);
                ("LLM_response", get_llm_response E (blank_line +:+ text2) query) ]).
Proof.
  intros Hconn Hurow Hok Hfirst.
  rewrite (upload_pdf_success E w file uid "" urow Hconn Hurow Hok). cbn [fst snd].
  split; [reflexivity |]. split.
  - rewrite (query_data_without_text E _ query uid urow
               {| p_user_id := uid; p_file_name := filename file;
                  p_upload_date := utcnow_strftime E; p_pdf_text := Some "";
                  p_last_updated := utcnow_strftime E |});
      [reflexivity | exact Hconn | exact Hurow | | now right].
    unfold pdfs_by_user in *. cbn. rewrite List.filter_app, Hfirst. cbn.
    rewrite String.eqb_refl. reflexivity.
  - intros file2 text2 Hname Hok2.
    match goal with
    | |- context [call (update_pdf_data E file2 uid) ?w1] =>
        rewrite (update_pdf_data_success E w1 file2 uid text2 urow Hconn Hurow Hok2)
    end.
    cbn [snd db users pdfs fs trace].
    rewrite (query_data_success E _ query uid (blank_line +:+ text2) urow
               {| p_user_id := uid; p_file_name := filename file;
                  p_upload_date := utcnow_strftime E;
                  p_pdf_text := Some (blank_line +:+ text2);
                  p_last_updated := utcnow_date E |});
      [reflexivity | exact Hconn | exact Hurow | | reflexivity
       | apply blank_line_nonempty].
    unfold pdfs_by_user in *. cbn. rewrite map_app, List.filter_app.
    rewrite filter_nil_of_none.
    + rewrite Hname. unfold UPDATE_pdfs_row. cbn.
      rewrite !String.eqb_refl. cbn. rewrite ?String.eqb_refl. reflexivity.
    + intros r Hr. apply in_map_iff in Hr as (r0 & <- & Hr0).
      assert (Hother : (p_user_id r0 =? uid) = false).
      { destruct (p_user_id r0 =? uid) eqn:Hid; [| reflexivity].
        assert (Hin : In r0 (List.filter (fun r => p_user_id r =? uid) (pdfs (db w))))
          by (apply filter_In; auto).
        rewrite Hfirst in Hin. destruct Hin. }
      unfold UPDATE_pdfs_row. rewrite Hother. cbn. exact Hother.
Qed.

(** Bob uploads a file without bytes, asks, appends a file with text and
    asks again. *)
Lemma upload_pdf_without_text_witness :
  fst (call (query_data Scanned.collab "q" "b2")
            (snd (call (upload_pdf Scanned.collab (Sample.pdf "b.pdf" []) "b2")
                       Sample.w_users)))
  = Raise (HTTPException 404 "No PDF data found for this user") /\
  fst (call (query_data Scanned.collab "q" "b2")
            (snd (call (update_pdf_data Scanned.collab (Sample.pdf "b.pdf" ["x"]%byte) "b2")
                       (snd (call (upload_pdf Scanned.collab (Sample.pdf "b.pdf" []) "b2")
                                  Sample.w_users)))))
  = Return [ ("uuid", "b2"); ("user", "bob"); ("query", "q");
             ("LLM_response", "Re: q | " +:+ blank_line +:+ "x") ].
Proof.
  destruct (upload_pdf_without_text Scanned.collab Sample.w_users
              (Sample.pdf "b.pdf" []) "b2" "q" Sample.bob)
    as (_ & Hquery & Hupdate).
  - reflexivity.
  - reflexivity.
  - repeat split. vm_compute. discriminate.
  - reflexivity.
  - split; [exact Hquery |].
    apply (Hupdate (Sample.pdf "b.pdf" ["x"]%byte) "x"); [reflexivity |].
    repeat split. vm_compute. discriminate.
Defined.

(** *** After the account is gone *)

Lemma delete_account_returns
    (E : collaborators) (w w' : world) (password : DeleteAccountInput)
    (uid : string) (resp : response) :
  call (delete_account E password uid) w = (Return resp, w') ->
  connect_attempts E 0 10 = true /\
  w' = {| db := {| users := List.filter (fun r => negb (u_user_id r =? uid))
                              (users (db w));
                   pdfs := pdfs (db w) |};
          fs := fs w; trace := trace w |}.
Proof.
  unfold delete_account. run_handler.
  destruct (connect_attempts E 0 10); cbn; [| discriminate].
  destruct (fetchone (users_by_id uid (db w))) as [row |]; cbn; [| discriminate].
  destruct (bcrypt_verify E (delete_password password) (u_password row)); cbn;
    [| discriminate].
  intros H. injection H as _ <-. split; reflexivity.
Qed.

Lemma users_by_id_after_delete (uid : string) (l : list users_row) :
  List.filter (fun r => u_user_id r =? uid)
    (List.filter (fun r => negb (u_user_id r =? uid)) l) = [].
Proof.
  apply filter_nil_of_none. intros r Hr.
  apply filter_In in Hr as [_ Hr]. now apply negb_true_iff in Hr.
Qed.

Lemma user_login_returns
    (E : collaborators) (w : world) (login_data : LoginInput) (resp : response) :
  fst (call (user_login E login_data) w) = Return resp ->
  exists row,
    In row (users (db w)) /\
    resp = [ ("message", "Login successful");
             ("access_token", sign_jwt E (u_user_id row));
             ("token_type", "bearer") ].
Proof.
  unfold user_login. run_handler.
  destruct (connect_attempts E 0 10); cbn; [| discriminate].
  destruct (fetchone (users_by_name_or_email (identifier login_data) (db w)))
    as [row |] eqn:Hrow; cbn; [| discriminate].
  destruct (bcrypt_verify E (login_password login_data) (u_password row)); cbn;
    [| discriminate].
  intros H. injection H as <-.
  apply fetchone_filter_Some in Hrow as [Hin _]. eauto.
Qed.

(** X20. After a [delete_account] that returned, the identifier is dead for
    the service: a query under it fails with 404 "User not found!" although
    its documents are still stored, and whatever the identifier and
    password, a login that succeeds is a login of another user, one who had
    a row before the deletion. *)
Theorem delete_account_then_query_and_login
    (E : collaborators) (w w' : world) (password : DeleteAccountInput)
    (uid : string) (resp : response) :
  call (delete_account E password uid) w = (Return resp, w') ->
  (forall query,
     call (query_data E query uid) w'
     = (Raise (HTTPException 404 "User not found!"), w')) /\
  pdfs_by_user uid (db w') = pdfs_by_user uid (db w) /\
  (forall login_data resp',
     fst (call (user_login E login_data) w') = Return resp' ->
     exists row,
       In row (users (db w)) /\ u_user_id row <> uid /\
       resp' = [ ("message", "Login successful");
                 ("access_token", sign_jwt E (u_user_id row));
                 ("token_type", "bearer") ]).
Proof.
  intros Hcall.
  destruct (delete_account_returns E w w' password uid resp Hcall) as [Hconn ->].
  split; [| split; [reflexivity |]].
  - intros query. unfold query_data. run_handler. rewrite Hconn. cbn.
    unfold users_by_id. cbn. rewrite users_by_id_after_delete. reflexivity.
  - intros login_data resp' Hlogin.
    destruct (user_login_returns E _ login_data resp' Hlogin) as (row & Hin & ->).
    cbn in Hin. apply filter_In in Hin as [Hin Hother].
    apply negb_true_iff, String.eqb_neq in Hother.
    exists row. repeat split; assumption.
Qed.

(** Alice deletes her account, then asks a question with her old token. *)
Lemma delete_account_then_query_and_login_witness :
  fst (call (query_data Sample.collab "q" "a1")
            (snd (call (delete_account Sample.collab (mkDeleteAccountInput "wonderland") "a1")
                       Sample.w_docs)))
  = Raise (HTTPException 404 "User not found!").
Proof.
  destruct (delete_account_then_query_and_login Sample.collab Sample.w_docs
              (snd (call (delete_account Sample.collab
                            (mkDeleteAccountInput "wonderland") "a1") Sample.w_docs))
              (mkDeleteAccountInput "wonderland") "a1"
              [("message", "Your account has been deleted!"); ("uuid", "a1")])
    as [Hquery _].
  - vm_compute. reflexivity.
  - now rewrite (Hquery "q").
Defined.

(** X21. Documents outlive the account and pass to the next registrant.
    After a [delete_account] that returned and a later registration under
    the same identifier that returned, table [pdfs] is what it was before
    the deletion, and a query under the identifier is answered from the
    first document the deleted account had stored, under the name of the
    new registrant. *)
Theorem register_again_inherits_documents
    (E : collaborators) (w w1 w2 : world) (credentials : DeleteAccountInput)
    (uid : string) (user : UserRegistration) (resp1 resp2 : response) :
  call (delete_account E credentials uid) w = (Return resp1, w1) ->
  call (register_user E uid user) w1 = (Return resp2, w2) ->
  pdfs (db w2) = pdfs (db w) /\
  (forall query row text,
     fetchone (pdfs_by_user uid (db w)) = Some row ->
     p_pdf_text row = Some text ->
     text <> "" ->
     fst (call (query_data E query uid) w2)
     = Return [ ("uuid", uid); ("user", user_name user); ("query", query);
                ("LLM_response", get_llm_response E text query) ]).
Proof.
  intros Hdelete Hregister.
  destruct (delete_account_returns E w w1 credentials uid resp1 Hdelete) as [Hconn Hw1].
  destruct (register_user_outcome E w1 uid user) as [[e He] | [_ Hret]];
    rewrite Hregister in *; [discriminate |].
  injection Hret as _ ->. subst w1. cbn [db users pdfs fs trace].
  split; [reflexivity |].
  intros query row text Hrow Hcol Htext.
  rewrite (query_data_success E _ query uid text
             {| u_user_id := uid; u_user_name := user_name user; u_email := email user;
                u_password := bcrypt_hash E (substring 0 72 (password user));
                u_registration_date := utcnow_strftime E |} row);
    [reflexivity | exact Hconn | | exact Hrow | exact Hcol | now apply String.eqb_neq].
  unfold users_by_id. cbn. rewrite List.filter_app, users_by_id_after_delete. cbn.
  rewrite String.eqb_refl. reflexivity.
Qed.

(** Alice deletes her account; carol registers under alice's identifier and
    asks: she is answered from alice's document. *)
Lemma register_again_inherits_documents_witness :
  fst (call (query_data Sample.collab "q" "a1")
            (snd (call (register_user Sample.collab "a1"
                          (mkUserRegistration "carol" "carol@x.com" "pw"))
                       (snd (call (delete_account Sample.collab
                                     (mkDeleteAccountInput "wonderland") "a1")
                                  Sample.w_docs)))))
  = Return [ ("uuid", "a1"); ("user", "carol"); ("query", "q");
             ("LLM_response", "Re: q | A") ].
Proof.
  destruct (register_again_inherits_documents Sample.collab Sample.w_docs
              (snd (call (delete_account Sample.collab
                            (mkDeleteAccountInput "wonderland") "a1") Sample.w_docs))
              (snd (call (register_user Sample.collab "a1"
                            (mkUserRegistration "carol" "carol@x.com" "pw"))
                         (snd (call (delete_account Sample.collab
                                       (mkDeleteAccountInput "wonderland") "a1")
                                    Sample.w_docs))))
              (mkDeleteAccountInput "wonderland") "a1"
              (mkUserRegistration "carol" "carol@x.com" "pw")
              [("message", "Your account has been deleted!"); ("uuid", "a1")]
              [("message", "User registered successfully!"); ("uuid", "a1");
               ("user_name", "carol"); ("email", "carol@x.com");
               ("Registration_date", "03-11-26")])
    as [_ Hquery].
  - vm_compute. reflexivity.
  - vm_compute. reflexivity.
  - apply (Hquery "q" Sample.alice_doc "A"); [reflexivity | reflexivity | discriminate].
Defined.

(** X22. [query_data] never writes: on every path the database and the
    scratch directory are unchanged. It calls the LLM client exactly when it
    returns, once, on a non-empty text: a query that fails leaves the whole
    world, trace of calls included, as it was. *)
Theorem query_data_is_read_only
    (E : collaborators) (w : world) (query uid : string) :
  db (snd (call (query_data E query uid) w)) = db w /\
  fs (snd (call (query_data E query uid) w)) = fs w /\
  (forall e, fst (call (query_data E query uid) w) = Raise e ->
             snd (call (query_data E query uid) w) = w) /\
  (forall resp, fst (call (query_data E query uid) w) = Return resp ->
     exists text,
       text <> "" /\
       trace (snd (call (query_data E query uid) w))
       = (trace w ++ [LLMCalled text query])%list).
Proof.
  unfold query_data. run_handler.
  destruct (connect_attempts E 0 10); cbn;
    [| repeat split; try reflexivity; discriminate].
  destruct (fetchone (users_by_id uid (db w))) as [urow |]; cbn;
    [| repeat split; try reflexivity; discriminate].
  destruct (fetchone (pdfs_by_user uid (db w))) as [row |]; cbn;
    [| repeat split; try reflexivity; discriminate].
  destruct (p_pdf_text row) as [text |]; cbn;
    [| repeat split; try reflexivity; discriminate].
  destruct (String.eqb_spec text "") as [Hempty | Htext]; cbn;
    [repeat split; try reflexivity; discriminate |].
  split; [reflexivity |]. split; [reflexivity |]. split; [discriminate |].
  intros resp _. exists text. split; [exact Htext | reflexivity].
Qed.
